(** * vci-proxy: the live-data triad

    A shallow embedding of the cache manager (cache-manager.js), the
    broadcast service (broadcast-service.js), the realtime manager
    (realtime-manager.js) and the wiring done by [startServer]
    (server.js), followed by the properties the specification states
    about them.

    JavaScript [Map]s and plain objects are finite maps ([gmap]), [Set]s
    are finite sets ([gset]); every handler is a function from the state
    before the call to the state after it, together with the effects
    (console lines, socket emissions) it performs.  A [try]/[catch] is a
    match on an outcome. *)

From Stdlib Require Import String Ascii ZArith Lia.
From stdpp Require Import gmap strings pretty list fin_maps.

Local Open Scope string_scope.
Set Warnings "-clear-no-such-hyp".

(** ** JavaScript values *)

Module Js.

(** The operations the sources apply to JavaScript numbers (IEEE-754
    doubles).  The development is parametric in them: no property below
    depends on how a double rounds. *)
Class Number (num : Type) := {
  sub : num → num → num;          (* a - b *)
  div : num → num → num;          (* a / b *)
  mul : num → num → num;          (* a * b *)
  of_Z : Z → num;                 (* integer literals: 0, 100 *)
  NaN : num;
  of_string : string → num;       (* ToNumber on a string *)
  truthy : num → bool;            (* neither 0 nor NaN *)
  gt : num → num → bool;          (* a > b *)
  to_string : num → string;       (* ToString on a number *)
  toFixed0 : num → num            (* Number(x.toFixed(0)) *)
}.

Inductive val {num : Type} :=
| VUndefined
| VNum (n : num)
| VStr (s : string).
Arguments val : clear implicits.

(** A plain object: its own enumerable properties. *)
Abbreviation obj num := (gmap string (val num)).

Section Values.
Context {num : Type} `{!Number num}.

(** [o.k]: reading a missing property gives [undefined]. *)
Definition get (o : obj num) (k : string) : val num :=
  default VUndefined (o !! k).

Definition ToNumber (v : val num) : num :=
  match v with
  | VUndefined => NaN
  | VNum n => n
  | VStr s => of_string s
  end.

Definition ToBoolean (v : val num) : bool :=
  match v with
  | VUndefined => false
  | VNum n => truthy n
  | VStr s => negb (String.eqb s "")
  end.

Definition minus (a b : val num) : val num := VNum (sub (ToNumber a) (ToNumber b)).
Definition divide (a b : val num) : val num := VNum (div (ToNumber a) (ToNumber b)).
Definition times (a b : val num) : val num := VNum (mul (ToNumber a) (ToNumber b)).

Definition greater (a b : val num) : bool := gt (ToNumber a) (ToNumber b).

(** A computed property key [o[v]]. *)
Definition ToPropertyKey (v : val num) : string :=
  match v with
  | VUndefined => "undefined"
  | VNum n => to_string n
  | VStr s => s
  end.

(** [a || b] *)
Definition or (a b : val num) : val num := if ToBoolean a then a else b.

(** [a ?? b] *)
Definition nullish (a b : val num) : val num :=
  match a with VUndefined => b | _ => a end.

(** [v ? Number(v.toFixed(0)) : v]; [None] is the TypeError raised
    when a truthy [v] is not a number and so has no [toFixed]. *)
Definition toFixed0_if_truthy (v : val num) : option (val num) :=
  if ToBoolean v then
    match v with
    | VNum n => Some (VNum (toFixed0 n))
    | _ => None
    end
  else Some v.
End Values.

(** [s.includes(sub)] *)
Fixpoint includes (s sub : string) : bool :=
  if String.prefix sub s then true
  else match s with
       | EmptyString => false
       | String _ rest => includes rest sub
       end.

(** An object literal [{ k1: v1, k2: v2, ... }]: a later duplicate key wins. *)
Definition literal {V : Type} (props : list (string * V)) : gmap string V :=
  foldl (λ o kv, <[kv.1 := kv.2]> o) ∅ props.

(** [{ ...a, ...b }]: the properties of [a], overwritten by those of [b]. *)
Definition spread2 {V : Type} (a b : gmap string V) : gmap string V := b ∪ a.

(** [Object.entries(o)] *)
Definition entries {V : Type} (o : gmap string V) : list (string * V) :=
  map_to_list o.

(** [[...new Set(l)]]: the members of [l] once each, in the order of
    their first occurrence. *)
Fixpoint distinct (l : list string) : list string :=
  match l with
  | [] => []
  | x :: rest => x :: filter (λ y, y ≠ x) (distinct rest)
  end.

End Js.

(** ** cache-manager.js *)

Module CacheManager.
Section Cache.
(** The cache never inspects the values it stores. *)
Context {val : Type}.

Record Stats := {
  symbolsCount : nat;
  stockDataCount : nat;
  groupsCount : nat;
  marketIndexesCount : nat;
  companiesCount : nat
}.

(** The fields of [class CacheManager]; [lastUpdate], a wall-clock
    [Date] that only [initialize] and [setSymbols] write, is left out. *)
Record Cache := {
  symbols : gmap string (gmap string val);
  stockData : gmap string (gmap string val);
  symbolsByGroup : gmap string (list string);
  marketIndexes : gmap string (gmap string val);
  companies : list (gmap string val);
  isInitialized : bool;
  stats : Stats
}.

Definition zeroStats : Stats :=
  {| symbolsCount := 0; stockDataCount := 0; groupsCount := 0;
     marketIndexesCount := 0; companiesCount := 0 |}.

Definition constructor : Cache :=
  {| symbols := ∅; stockData := ∅; symbolsByGroup := ∅; marketIndexes := ∅;
     companies := []; isInitialized := false; stats := zeroStats |}.

Definition initialize (c : Cache) : Cache :=
  {| symbols := symbols c; stockData := stockData c;
     symbolsByGroup := symbolsByGroup c; marketIndexes := marketIndexes c;
     companies := companies c; isInitialized := true; stats := stats c |}.

Definition setStockData (symbol : string) (data : gmap string val) (c : Cache) : Cache :=
  let stockData' := <[symbol := data]> (stockData c) in
  {| symbols := symbols c; stockData := stockData';
     symbolsByGroup := symbolsByGroup c; marketIndexes := marketIndexes c;
     companies := companies c; isInitialized := isInitialized c;
     stats := {| symbolsCount := symbolsCount (stats c);
                 stockDataCount := size stockData';
                 groupsCount := groupsCount (stats c);
                 marketIndexesCount := marketIndexesCount (stats c);
                 companiesCount := companiesCount (stats c) |} |}.

Definition setMultipleStockData (stockDataMap : gmap string (gmap string val))
    (c : Cache) : Cache :=
  foldl (λ c' entry, setStockData entry.1 entry.2 c') c (Js.entries stockDataMap).

Definition setSymbolsByGroup (group : string) (syms : list string) (c : Cache) : Cache :=
  let groups' := <[group := syms]> (symbolsByGroup c) in
  {| symbols := symbols c; stockData := stockData c;
     symbolsByGroup := groups'; marketIndexes := marketIndexes c;
     companies := companies c; isInitialized := isInitialized c;
     stats := {| symbolsCount := symbolsCount (stats c);
                 stockDataCount := stockDataCount (stats c);
                 groupsCount := size groups';
                 marketIndexesCount := marketIndexesCount (stats c);
                 companiesCount := companiesCount (stats c) |} |}.

Definition setMarketIndex (symbol : string) (data : gmap string val) (c : Cache) : Cache :=
  let indexes' := <[symbol := data]> (marketIndexes c) in
  {| symbols := symbols c; stockData := stockData c;
     symbolsByGroup := symbolsByGroup c; marketIndexes := indexes';
     companies := companies c; isInitialized := isInitialized c;
     stats := {| symbolsCount := symbolsCount (stats c);
                 stockDataCount := stockDataCount (stats c);
                 groupsCount := groupsCount (stats c);
                 marketIndexesCount := size indexes';
                 companiesCount := companiesCount (stats c) |} |}.

Definition setMarketIndexes (indexesMap : gmap string (gmap string val))
    (c : Cache) : Cache :=
  foldl (λ c' entry, setMarketIndex entry.1 entry.2 c') c (Js.entries indexesMap).

Definition getSymbolsByGroup (group : string) (c : Cache) : list string :=
  default [] (symbolsByGroup c !! group).

(** [result[symbol] = data] for every listed symbol that has data. *)
Definition getStockDataBySymbols (syms : list string) (c : Cache)
    : gmap string (gmap string val) :=
  foldl (λ result symbol,
           match stockData c !! symbol with
           | Some data => <[symbol := data]> result
           | None => result
           end) ∅ syms.

Definition getStockDataByGroup (group : string) (c : Cache)
    : gmap string (gmap string val) :=
  getStockDataBySymbols (getSymbolsByGroup group c) c.

Definition updateStockData (symbol : string) (updateData : gmap string val)
    (c : Cache) : Cache :=
  let existingData := default ∅ (stockData c !! symbol) in
  let updatedData := Js.spread2 existingData updateData in
  setStockData symbol updatedData c.

Definition isReady (c : Cache) : bool :=
  isInitialized c && bool_decide (0 < size (symbols c)) &&
  bool_decide (0 < size (stockData c)).

(** What a reader sees in field [f] of [symbol]'s record. *)
Definition field (c : Cache) (symbol f : string) : option val :=
  stockData c !! symbol ≫= λ data, data !! f.

Definition setCompanies (newCompanies : list (gmap string val)) (c : Cache) : Cache :=
  {| symbols := symbols c; stockData := stockData c;
     symbolsByGroup := symbolsByGroup c; marketIndexes := marketIndexes c;
     companies := newCompanies; isInitialized := isInitialized c;
     stats := {| symbolsCount := symbolsCount (stats c);
                 stockDataCount := stockDataCount (stats c);
                 groupsCount := groupsCount (stats c);
                 marketIndexesCount := marketIndexesCount (stats c);
                 companiesCount := length newCompanies |} |}.

Definition getMarketIndexes (syms : list string) (c : Cache)
    : gmap string (gmap string val) :=
  if decide (length syms = 0) then ∅
  else foldl (λ result symbol,
                match marketIndexes c !! symbol with
                | Some data => <[symbol := data]> result
                | None => result
                end) ∅ syms.

Definition getCompanies (c : Cache) : list (gmap string val) := companies c.

(** [getStats()]: the counters, and under [memoryUsage] the sizes read
    from the structures themselves ([lastUpdate] left out). *)
Record Report := {
  counters : Stats;
  reportInitialized : bool;
  memoryUsage : Stats
}.

Definition getStats (c : Cache) : Report :=
  {| counters := stats c;
     reportInitialized := isInitialized c;
     memoryUsage := {| symbolsCount := size (symbols c);
                       stockDataCount := size (stockData c);
                       groupsCount := size (symbolsByGroup c);
                       marketIndexesCount := size (marketIndexes c);
                       companiesCount := length (companies c) |} |}.

Definition clear (c : Cache) : Cache :=
  {| symbols := ∅; stockData := ∅; symbolsByGroup := ∅; marketIndexes := ∅;
     companies := []; isInitialized := false; stats := zeroStats |}.

(** The calls that write to the cache ([setSymbols] apart). *)
Inductive Write :=
| Initialize
| SetStockData (symbol : string) (data : gmap string val)
| SetMultipleStockData (stockDataMap : gmap string (gmap string val))
| SetSymbolsByGroup (group : string) (syms : list string)
| SetMarketIndex (symbol : string) (data : gmap string val)
| SetMarketIndexes (indexesMap : gmap string (gmap string val))
| SetCompanies (newCompanies : list (gmap string val))
| UpdateStockData (symbol : string) (updateData : gmap string val)
| Clear.

Definition write (c : Cache) (op : Write) : Cache :=
  match op with
  | Initialize => initialize c
  | SetStockData symbol data => setStockData symbol data c
  | SetMultipleStockData stockDataMap => setMultipleStockData stockDataMap c
  | SetSymbolsByGroup group syms => setSymbolsByGroup group syms c
  | SetMarketIndex symbol data => setMarketIndex symbol data c
  | SetMarketIndexes indexesMap => setMarketIndexes indexesMap c
  | SetCompanies newCompanies => setCompanies newCompanies c
  | UpdateStockData symbol updateData => updateStockData symbol updateData c
  | Clear => clear c
  end.

Definition writes (ops : list Write) : Cache := foldl write constructor ops.
End Cache.
Arguments Cache : clear implicits.
Arguments Stats : clear implicits.
Arguments Report : clear implicits.
Arguments Write : clear implicits.
End CacheManager.

(** ** broadcast-service.js *)

Module BroadcastService.

(** A downstream client's socket, as far as the service looks at it:
    the [connected] flag, and whether a call of [emit] raises. *)
Record Socket := {
  connected : bool;
  emitThrows : bool
}.

(** The [data] argument of a subscription event, after
    [typeof data === 'string' ? JSON.parse(data) : data] and
    [parsedData.symbols || []]. *)
Inductive Payload :=
| Malformed        (* JSON.parse raises, or the parsed value is null or undefined *)
| SymbolsNotArray  (* parsedData.symbols is truthy and not an array *)
| Symbols (symbols : list string).  (* an array of symbols; a falsy or missing property reads as [] *)

Section Service.
(** The decoded message handed to [broadcastUpdate], and [JSON.stringify] on it. *)
Context {Data : Type} (JSON_stringify : Data → string).

Record Service := {
  clientSubscriptions : gmap string (gset string);  (* clientId -> Set of symbols *)
  symbolSubscribers : gmap string (gset string);    (* symbol -> Set of clientIds *)
  connectedClients : gmap string Socket             (* clientId -> socket *)
}.

(** What a call does besides changing the three maps. *)
Inductive Effect :=
| ConsoleWarn (msg : string)
| ConsoleError (msg : string)
| ConvertToBinaryData (binaryData : string)            (* one call of convertToBinaryData, and its result *)
| Emit (clientId eventType : string) (binaryData : string). (* one call of socket.emit *)

Definition constructor : Service :=
  {| clientSubscriptions := ∅; symbolSubscribers := ∅; connectedClients := ∅ |}.

(** [this.io.on('connection', socket => this.connectedClients.set(socket.id, socket))] *)
Definition handleConnection (socketId : string) (socket : Socket) (h : Service) : Service :=
  {| clientSubscriptions := clientSubscriptions h;
     symbolSubscribers := symbolSubscribers h;
     connectedClients := <[socketId := socket]> (connectedClients h) |}.

(** The body of [symbols.forEach] in [handleSubscription]; the client's
    Set is the one stored in the map, mutated in place. *)
Definition subscribeSymbol (clientId : string) (h : Service) (symbol : string) : Service :=
  let clients := alter (λ clientSymbols, clientSymbols ∪ {[symbol]}) clientId
                   (clientSubscriptions h) in
  let subscribers :=
    match symbolSubscribers h !! symbol with
    | Some _ => symbolSubscribers h
    | None => <[symbol := ∅]> (symbolSubscribers h)
    end in
  {| clientSubscriptions := clients;
     symbolSubscribers := alter (λ s, s ∪ {[clientId]}) symbol subscribers;
     connectedClients := connectedClients h |}.

Definition handleSubscription (clientId eventType : string) (data : Payload)
    (h : Service) : Service * list Effect :=
  match data with
  | Malformed =>
      (h, [ConsoleError ("[BROADCAST] Error handling subscription from client "
                          +:+ clientId +:+ ":")])
  | SymbolsNotArray =>
      (h, [ConsoleWarn ("[BROADCAST] Invalid symbols format from client " +:+ clientId)])
  | Symbols symbols =>
      let h0 :=
        match clientSubscriptions h !! clientId with
        | Some _ => h
        | None => {| clientSubscriptions := <[clientId := ∅]> (clientSubscriptions h);
                     symbolSubscribers := symbolSubscribers h;
                     connectedClients := connectedClients h |}
        end in
      (foldl (subscribeSymbol clientId) h0 symbols, [])
  end.

(** Remove [clientId] from [symbol]'s subscriber Set, deleting the entry
    when the Set becomes empty: the shared tail of the loops in
    [handleUnsubscription] and [handleDisconnection]. *)
Definition removeSubscriber (clientId symbol : string)
    (subscribers : gmap string (gset string)) : gmap string (gset string) :=
  match subscribers !! symbol with
  | Some symbolSubscribers =>
      let remaining := symbolSubscribers ∖ {[clientId]} in
      if decide (size remaining = 0) then delete symbol subscribers
      else <[symbol := remaining]> subscribers
  | None => subscribers
  end.

(** The body of [symbols.forEach] in [handleUnsubscription]. *)
Definition unsubscribeSymbol (clientId : string) (h : Service) (symbol : string) : Service :=
  {| clientSubscriptions :=
       alter (λ clientSymbols, clientSymbols ∖ {[symbol]}) clientId (clientSubscriptions h);
     symbolSubscribers := removeSubscriber clientId symbol (symbolSubscribers h);
     connectedClients := connectedClients h |}.

Definition handleUnsubscription (clientId eventType : string) (data : Payload)
    (h : Service) : Service * list Effect :=
  match data with
  | Malformed =>
      (h, [ConsoleError ("[BROADCAST] Error handling unsubscription from client "
                          +:+ clientId +:+ ":")])
  | SymbolsNotArray =>
      (h, [ConsoleWarn ("[BROADCAST] Invalid symbols format from client " +:+ clientId)])
  | Symbols symbols =>
      match clientSubscriptions h !! clientId with
      | None => (h, [])
      | Some _ => (foldl (unsubscribeSymbol clientId) h symbols, [])
      end
  end.

Definition handleDisconnection (clientId : string) (h : Service) : Service :=
  let h1 :=
    match clientSubscriptions h !! clientId with
    | Some clientSymbols =>
        {| clientSubscriptions := delete clientId (clientSubscriptions h);
           symbolSubscribers :=
             foldl (λ subscribers symbol, removeSubscriber clientId symbol subscribers)
                   (symbolSubscribers h) (elements clientSymbols);
           connectedClients := connectedClients h |}
    | None => h
    end in
  {| clientSubscriptions := clientSubscriptions h1;
     symbolSubscribers := symbolSubscribers h1;
     connectedClients := delete clientId (connectedClients h1) |}.

(** [Buffer.from(JSON.stringify(data))]: the bytes of the JSON text. *)
Definition convertToBinaryData (data : Data) : string := JSON_stringify data.

(** The body of [subscribers.forEach] in [broadcastUpdate]. *)
Definition sendTo (h : Service) (eventType binaryData clientId : string) : list Effect :=
  match connectedClients h !! clientId with
  | Some socket =>
      if connected socket then
        Emit clientId eventType binaryData ::
        (if emitThrows socket
         then [ConsoleError ("[BROADCAST] Error sending to client " +:+ clientId +:+ ":")]
         else [])
      else [ConsoleWarn ("[BROADCAST] Client " +:+ clientId +:+ " not connected, skipping")]
  | None => [ConsoleWarn ("[BROADCAST] Client " +:+ clientId +:+ " not connected, skipping")]
  end.

(** [broadcastUpdate] reads the service and changes nothing in it.  A
    JavaScript Set is walked in insertion order; [elements] fixes some
    order of the same members. *)
Definition broadcastUpdate (symbol eventType : string) (data : Data)
    (h : Service) : list Effect :=
  match symbolSubscribers h !! symbol with
  | None => []
  | Some subscribers =>
      if decide (size subscribers = 0) then []
      else
        let binaryData := convertToBinaryData data in
        ConvertToBinaryData binaryData ::
        flat_map (sendTo h eventType binaryData) (elements subscribers)
  end.

Definition getSubscribers (symbol : string) (h : Service) : list string :=
  match symbolSubscribers h !! symbol with
  | Some subscribers => elements subscribers
  | None => []
  end.

Definition cleanup (h : Service) : Service := constructor.

(** The listeners [setupEventHandlers] installs on a client socket. *)
Definition onClientEvent (socketId event : string) (data : Payload)
    (h : Service) : Service * list Effect :=
  if String.eqb event "match-price" then handleSubscription socketId "match-price" data h
  else if String.eqb event "bid-ask" then handleSubscription socketId "bid-ask" data h
  else if String.eqb event "unsubscribe-match-price"
    then handleUnsubscription socketId "match-price" data h
  else if String.eqb event "unsubscribe-bid-ask"
    then handleUnsubscription socketId "bid-ask" data h
  else if String.eqb event "disconnect" then (handleDisconnection socketId h, [])
  else if String.eqb event "error"
    then (h, [ConsoleError ("[BROADCAST] Client " +:+ socketId +:+ " error:")])
  else (h, []).

(** The calls that change the service. *)
Inductive Op :=
| Connection (socketId : string) (socket : Socket)
| Subscription (clientId eventType : string) (data : Payload)
| Unsubscription (clientId eventType : string) (data : Payload)
| Disconnection (clientId : string).

Definition step (h : Service) (op : Op) : Service :=
  match op with
  | Connection socketId socket => handleConnection socketId socket h
  | Subscription clientId eventType data => (handleSubscription clientId eventType data h).1
  | Unsubscription clientId eventType data => (handleUnsubscription clientId eventType data h).1
  | Disconnection clientId => handleDisconnection clientId h
  end.

Definition run (ops : list Op) : Service := foldl step constructor ops.

(** The two indexes read as relations. *)
Definition subscribers (h : Service) (symbol : string) : gset string :=
  default ∅ (symbolSubscribers h !! symbol).

Definition interests (h : Service) (clientId : string) : gset string :=
  default ∅ (clientSubscriptions h !! clientId).


(** [getStats()] *)
Record Stats := {
  statsConnectedClients : nat;
  totalSubscriptions : nat;
  symbolsTracked : nat;
  totalSymbolSubscriptions : nat
}.

Definition getStats (h : Service) : Stats :=
  {| statsConnectedClients := size (connectedClients h);
     totalSubscriptions := size (clientSubscriptions h);
     symbolsTracked := size (symbolSubscribers h);
     totalSymbolSubscriptions :=
       foldl (λ total subscribers, total + size subscribers) 0
             (map_to_list (symbolSubscribers h)).*2 |}.

End Service.
Arguments Service : clear implicits.
Arguments Effect : clear implicits.
Arguments Op : clear implicits.
End BroadcastService.

(** ** realtime-manager.js *)

Module RealtimeManager.

(** The result of a call that may raise: the state it leaves either way. *)
Inductive outcome (A : Type) :=
| Returned (a : A)
| Thrown (a : A).
Arguments Returned {A} a.
Arguments Thrown {A} a.

(** The message types [loadProtobufSchema] looks up in price.proto. *)
Inductive MessageType :=
| IndexMessage
| MatchPriceMessage
| OddLotMatchPriceMessage
| FutureMatchPrice
| BidAskMessage
| OddLotBidAskMessage
| PutThroughMessage
| AdvertiseMessage
| GlobalPriceMessage.

(** [this.messageTypes] once the schema is loaded. *)
Definition loadedMessageTypes : gmap string MessageType :=
  Js.literal
    [("index", IndexMessage);
     ("match-price", MatchPriceMessage);
     ("oddLotMatchPrice", OddLotMatchPriceMessage);
     ("futureMatchPrice", FutureMatchPrice);
     ("bid-ask", BidAskMessage);
     ("oddLotBidAsk", OddLotBidAskMessage);
     ("putThrough", PutThroughMessage);
     ("advertise", AdvertiseMessage);
     ("globalPrice", GlobalPriceMessage)].

Record Config := {
  serverUrl : string;
  socketPath : string;
  reconnectionAttempts : nat;
  reconnectionDelay : nat
}.

(** The upstream socket: whether a call of its [emit] raises. *)
Record Socket := {
  id : option string;
  emitThrows : bool
}.

Section Manager.
Context {num : Type} `{!Js.Number num}.

(** price.proto is not part of the sources.  The decoded messages carry
    the fields [updateCache] reads: [symbol] is a string in every schema,
    the fields the code computes with are numbers, and the fields it only
    copies may hold any value ([longs: String] turns 64-bit integers into
    strings). *)
Record MatchPrice := {
  mp_symbol : string;
  mp_matchPrice : num;
  mp_matchVol : Js.val num;
  mp_referencePrice : num;
  mp_accumulatedVolume : Js.val num;
  mp_accumulatedValue : Js.val num;
  mp_currentRoom : Js.val num;
  mp_foreignBuyVolume : Js.val num;
  mp_foreignSellVolume : Js.val num;
  mp_avgMatchPrice : num;
  mp_highest : Js.val num;
  mp_lowest : Js.val num
}.

Record PriceLevel := {
  price : Js.val num;
  volume : Js.val num
}.

Record BidAsk := {
  ba_symbol : string;
  ba_bidPrices : list PriceLevel;
  ba_askPrices : list PriceLevel
}.

Record Index := {
  ix_code : Js.val num;
  ix_symbol : string;
  ix_price : Js.val num;
  ix_change : Js.val num;
  ix_changePercent : Js.val num;
  ix_totalShares : Js.val num;
  ix_totalValue : Js.val num;
  ix_totalStockIncrease : Js.val num;
  ix_totalStockDecline : Js.val num;
  ix_totalStockNoChange : Js.val num;
  ix_totalStockCeiling : Js.val num;
  ix_totalStockFloor : Js.val num;
  ix_estimatedChange : Js.val num;
  ix_estimatedFsp : Js.val num;
  ix_time : Js.val num
}.

Inductive DecodedMessage :=
| OfMatchPrice (m : MatchPrice)
| OfBidAsk (m : BidAsk)
| OfIndex (m : Index)
| OfOther (messageType : MessageType) (symbol : string).  (* the six other schemas *)

(** [message.symbol] *)
Definition symbol (message : DecodedMessage) : string :=
  match message with
  | OfMatchPrice m => mp_symbol m
  | OfBidAsk m => ba_symbol m
  | OfIndex m => ix_symbol m
  | OfOther _ s => s
  end.

(** The scalar properties of the plain object [messageType.toObject] returns. *)
Definition toObject (message : DecodedMessage) : Js.obj num :=
  match message with
  | OfMatchPrice m =>
      Js.literal
        [("symbol", Js.VStr (mp_symbol m));
         ("matchPrice", Js.VNum (mp_matchPrice m));
         ("matchVol", mp_matchVol m);
         ("referencePrice", Js.VNum (mp_referencePrice m));
         ("accumulatedVolume", mp_accumulatedVolume m);
         ("accumulatedValue", mp_accumulatedValue m);
         ("currentRoom", mp_currentRoom m);
         ("foreignBuyVolume", mp_foreignBuyVolume m);
         ("foreignSellVolume", mp_foreignSellVolume m);
         ("avgMatchPrice", Js.VNum (mp_avgMatchPrice m));
         ("highest", mp_highest m);
         ("lowest", mp_lowest m)]
  | OfBidAsk m => Js.literal [("symbol", Js.VStr (ba_symbol m))]
  | OfIndex m =>
      Js.literal
        [("code", ix_code m);
         ("symbol", Js.VStr (ix_symbol m));
         ("price", ix_price m);
         ("change", ix_change m);
         ("changePercent", ix_changePercent m);
         ("totalShares", ix_totalShares m);
         ("totalValue", ix_totalValue m);
         ("totalStockIncrease", ix_totalStockIncrease m);
         ("totalStockDecline", ix_totalStockDecline m);
         ("totalStockNoChange", ix_totalStockNoChange m);
         ("totalStockCeiling", ix_totalStockCeiling m);
         ("totalStockFloor", ix_totalStockFloor m);
         ("estimatedChange", ix_estimatedChange m);
         ("estimatedFsp", ix_estimatedFsp m);
         ("time", ix_time m)]
  | OfOther _ s => Js.literal [("symbol", Js.VStr s)]
  end.

(** [message.bidPrices || []] and [message.askPrices || []] *)
Definition bidPrices (message : DecodedMessage) : list PriceLevel :=
  match message with OfBidAsk m => ba_bidPrices m | _ => [] end.

Definition askPrices (message : DecodedMessage) : list PriceLevel :=
  match message with OfBidAsk m => ba_askPrices m | _ => [] end.

(** [levels[i]?.price ?? 0] and [levels[i]?.volume ?? 0] *)
Definition priceAt (levels : list PriceLevel) (i : nat) : Js.val num :=
  match levels !! i with
  | Some level => Js.nullish (price level) (Js.VNum (Js.of_Z 0))
  | None => Js.VNum (Js.of_Z 0)
  end.

Definition volumeAt (levels : list PriceLevel) (i : nat) : Js.val num :=
  match levels !! i with
  | Some level => Js.nullish (volume level) (Js.VNum (Js.of_Z 0))
  | None => Js.VNum (Js.of_Z 0)
  end.

(** What the manager does to the outside: console lines (the text, and
    the values interpolated into it), and calls on the upstream socket. *)
Inductive Effect :=
| ConsoleLog (text : string) (args : list (Js.val num))
| ConsoleWarn (text : string)
| ConsoleError (text : string)
| IoConnect (config : Config) (reconnection : bool)           (* io(serverUrl, options) *)
| SocketEmit (event : string) (subscribed : list string)     (* socket.emit(event, '{"symbols":[...]}') *)
| SocketRemoveAllListeners
| SocketDisconnect.

(** Everything outside the manager that a message can touch: the
    cache-manager singleton, the console and the upstream socket, and
    whatever the update callback closes over. *)
Context {Env : Type}.

Record World := {
  cache : CacheManager.Cache (Js.val num);
  effects : list Effect;      (* oldest first *)
  env : Env
}.

Definition perform (e : list Effect) (w : World) : World :=
  {| cache := cache w; effects := effects w ++ e; env := env w |}.

Definition withCache (f : CacheManager.Cache (Js.val num) → CacheManager.Cache (Js.val num))
    (w : World) : World :=
  {| cache := f (cache w); effects := effects w; env := env w |}.

Definition Callback : Type := DecodedMessage → string → World → outcome World.

Record Manager := {
  socket : option Socket;
  messageTypes : gmap string MessageType;
  isConnected : bool;
  reconnectAttempts : nat;
  maxReconnectAttempts : nat;
  reconnectDelay : nat;
  symbols : list string;
  onUpdateCallback : option Callback;
  config : Config
}.

Definition constructor : Manager :=
  {| socket := None;
     messageTypes := ∅;
     isConnected := false;
     reconnectAttempts := 0;
     maxReconnectAttempts := 5;
     reconnectDelay := 1000;
     symbols := [];
     onUpdateCallback := None;
     config := {| serverUrl := "https://trading.vietcap.com.vn";
                  socketPath := "/ws/price/socket.io";
                  reconnectionAttempts := 5;
                  reconnectionDelay := 1000 |} |}.

(** [message.k] *)
Local Notation "message .@ k" := (Js.get (toObject message) k)
  (at level 2, left associativity, format "message .@ k").

Definition updateCache (message : DecodedMessage) (type : string) (w : World)
    : outcome World :=
  let symbol := symbol message in
  if String.eqb type "match-price" then
    match Js.toFixed0_if_truthy (message.@"avgMatchPrice") with
    | None => Thrown w
    | Some tb =>
        let updateData := Js.literal
          [("khopLenhGia", message.@"matchPrice");
           ("khopLenhKL", message.@"matchVol");
           ("khopLenhChange", Js.minus (message.@"matchPrice") (message.@"referencePrice"));
           ("khopLenhPercent",
              Js.times
                (Js.divide (Js.minus (message.@"matchPrice") (message.@"referencePrice"))
                           (message.@"referencePrice"))
                (Js.VNum (Js.of_Z 100)));
           ("khopLenhKLGD", message.@"accumulatedVolume");
           ("khopLenhGTGD", message.@"accumulatedValue");
           ("gtgdTT", message.@"accumulatedValue");
           ("nnRoom", message.@"currentRoom");
           ("nnMua", message.@"foreignBuyVolume");
           ("nnBan", message.@"foreignSellVolume");
           ("tb", tb);
           ("cao", message.@"highest");
           ("thap", message.@"lowest")] in
        Returned (withCache (CacheManager.updateStockData symbol updateData) w)
    end
  else if String.eqb type "bid-ask" then
    let bidPrices := bidPrices message in
    let askPrices := askPrices message in
    let updateData := Js.literal
      [("duMuaGia1", priceAt bidPrices 0);
       ("duMuaKL1", volumeAt bidPrices 0);
       ("duMuaGia2", priceAt bidPrices 1);
       ("duMuaKL2", volumeAt bidPrices 1);
       ("duMuaGia3", priceAt bidPrices 2);
       ("duMuaKL3", volumeAt bidPrices 2);
       ("duBanGia1", priceAt askPrices 0);
       ("duBanKL1", volumeAt askPrices 0);
       ("duBanGia2", priceAt askPrices 1);
       ("duBanKL2", volumeAt askPrices 1);
       ("duBanGia3", priceAt askPrices 2);
       ("duBanKL3", volumeAt askPrices 2)] in
    Returned (withCache (CacheManager.updateStockData symbol updateData) w)
  else if String.eqb type "index" && Js.includes symbol "VN30" then
    let w1 := perform [ConsoleLog ("[CACHE-UPDATE] Updated index for " +:+ symbol)
                                  [message.@"price"; message.@"change"]] w in
    let indexData := Js.literal
      [("code", message.@"code");
       ("symbol", Js.VStr symbol);
       ("price", message.@"price");
       ("change", message.@"change");
       ("changePercent", message.@"changePercent");
       ("totalShares", message.@"totalShares");
       ("totalValue", message.@"totalValue");
       ("totalStockIncrease", message.@"totalStockIncrease");
       ("totalStockDecline", message.@"totalStockDecline");
       ("totalStockNoChange", message.@"totalStockNoChange");
       ("totalStockCeiling", message.@"totalStockCeiling");
       ("totalStockFloor", message.@"totalStockFloor");
       ("estimatedChange", message.@"estimatedChange");
       ("estimatedFsp", message.@"estimatedFsp");
       ("time", message.@"time");
       ("messageType", Js.VStr "index");
       ("sendingTime", message.@"time")] in
    Returned (withCache (CacheManager.setMarketIndex symbol indexData) w1)
  else Returned w.

(** [messageType.decode(new Uint8Array(data))] followed by [toObject]:
    the protobuf decoder for the schema file; [None] when it raises. *)
Context (decode : MessageType → string → option DecodedMessage).

(** The elapsed times ([Date.now()]) only feed log lines that are
    commented out or appended to the error text; they are left out. *)
Definition handleMessage (type data : string) (rm : Manager) (w : World) : World :=
  match messageTypes rm !! type with
  | None => perform [ConsoleWarn ("[SOCKET-MSG] Unknown message type: " +:+ type)] w
  | Some messageType =>
      match decode messageType data with
      | None =>
          perform [ConsoleError ("[SOCKET-MSG] Error processing " +:+ type +:+ " message")] w
      | Some decodedMessage =>
          if String.eqb (symbol decodedMessage) "" then
            perform [ConsoleWarn ("[SOCKET-MSG] Missing symbol in " +:+ type +:+ " message")] w
          else
            (* Update cache with new data *)
            match updateCache decodedMessage type w with
            | Thrown w1 =>
                perform [ConsoleError ("[SOCKET-MSG] Error processing " +:+ type +:+ " message")] w1
            | Returned w1 =>
                (* Notify callback if provided *)
                match onUpdateCallback rm with
                | None => w1
                | Some callback =>
                    match callback decodedMessage type w1 with
                    | Returned w2 => w2
                    | Thrown w2 =>
                        perform [ConsoleError ("[SOCKET-MSG] Error processing " +:+ type
                                               +:+ " message")] w2
                    end
                end
            end
      end
  end.

Definition subscribeToSymbols (rm : Manager) (w : World) : World :=
  match socket rm with
  | Some s =>
      if isConnected rm then
        if emitThrows s then
          perform [ConsoleError "[REALTIME] Failed to subscribe to symbols:"] w
        else
          perform [SocketEmit "match-price" (symbols rm);
                   SocketEmit "bid-ask" (symbols rm);
                   SocketEmit "index" ["VN30"; "VNINDEX"; "HNX30"; "HNXIndex"; "HNXUpcomIndex"]] w
      else perform [ConsoleWarn "[REALTIME] Cannot subscribe - socket not connected"] w
  | None => perform [ConsoleWarn "[REALTIME] Cannot subscribe - socket not connected"] w
  end.

(** The events of the upstream socket that [setupSocketEventHandlers] listens to. *)
Inductive SocketEvent :=
| Connect
| Disconnect (reason : string)
| ConnectError (message : string)
| Reconnect (attemptNumber : nat)
| ReconnectError
| Message (type data : string).

Definition setConnection (connected : bool) (attempts : nat) (rm : Manager) : Manager :=
  {| socket := socket rm; messageTypes := messageTypes rm;
     isConnected := connected; reconnectAttempts := attempts;
     maxReconnectAttempts := maxReconnectAttempts rm; reconnectDelay := reconnectDelay rm;
     symbols := symbols rm; onUpdateCallback := onUpdateCallback rm; config := config rm |}.

Definition on (event : SocketEvent) (st : Manager * World) : Manager * World :=
  let '(rm, w) := st in
  match socket rm with
  | None => st                       (* no socket, no listeners *)
  | Some _ =>
      match event with
      | Connect =>
          let rm' := setConnection true 0 rm in
          (rm', subscribeToSymbols rm' w)
      | Disconnect _ => (setConnection false (reconnectAttempts rm) rm, w)
      | ConnectError message =>
          let attempts := S (reconnectAttempts rm) in
          let rm' := setConnection (isConnected rm) attempts rm in
          let failed := ConsoleError ("[REALTIME] Connection attempt " +:+ pretty attempts
                                      +:+ " failed: " +:+ message) in
          if decide (maxReconnectAttempts rm' ≤ attempts)%nat then
            (rm', perform [failed; ConsoleError "[REALTIME] Max reconnection attempts reached"] w)
          else (rm', perform [failed] w)
      | Reconnect _ => st
      | ReconnectError => (rm, perform [ConsoleError "[REALTIME] Reconnection failed:"] w)
      | Message type data =>
          if String.eqb type "match-price" || String.eqb type "bid-ask" || String.eqb type "index"
          then (rm, handleMessage type data rm w)
          else st
      end
  end.

(** [setupSocket]: [io(serverUrl, options)] returns the new socket and
    starts connecting; the listeners are those of [on]. *)
Definition setupSocket (newSocket : Socket) (st : Manager * World) : Manager * World :=
  let '(rm, w) := st in
  ({| socket := Some newSocket; messageTypes := messageTypes rm;
      isConnected := isConnected rm; reconnectAttempts := reconnectAttempts rm;
      maxReconnectAttempts := maxReconnectAttempts rm; reconnectDelay := reconnectDelay rm;
      symbols := symbols rm; onUpdateCallback := onUpdateCallback rm; config := config rm |},
   perform [IoConnect (config rm) true] w).

(** [initialize]; [schemaLoads] tells whether price.proto loads and has
    the nine message types. *)
Definition initialize (newSymbols : list string) (onUpdate : Callback)
    (schemaLoads : bool) (newSocket : Socket) (st : Manager * World)
    : outcome (Manager * World) :=
  let '(rm, w) := st in
  let rm1 :=
    {| socket := socket rm; messageTypes := messageTypes rm;
       isConnected := isConnected rm; reconnectAttempts := reconnectAttempts rm;
       maxReconnectAttempts := maxReconnectAttempts rm; reconnectDelay := reconnectDelay rm;
       symbols := newSymbols; onUpdateCallback := Some onUpdate; config := config rm |} in
  if schemaLoads then
    let rm2 :=
      {| socket := socket rm1; messageTypes := loadedMessageTypes;
         isConnected := isConnected rm1; reconnectAttempts := reconnectAttempts rm1;
         maxReconnectAttempts := maxReconnectAttempts rm1; reconnectDelay := reconnectDelay rm1;
         symbols := symbols rm1; onUpdateCallback := onUpdateCallback rm1;
         config := config rm1 |} in
    Returned (setupSocket newSocket (rm2, w))
  else
    Thrown (rm1, perform [ConsoleError "[REALTIME] Failed to load protobuf schema:";
                          ConsoleError "[REALTIME] Failed to initialize:"] w).

Definition updateSymbols (newSymbols : list string) (st : Manager * World) : Manager * World :=
  let '(rm, w) := st in
  let rm' :=
    {| socket := socket rm; messageTypes := messageTypes rm;
       isConnected := isConnected rm; reconnectAttempts := reconnectAttempts rm;
       maxReconnectAttempts := maxReconnectAttempts rm; reconnectDelay := reconnectDelay rm;
       symbols := newSymbols; onUpdateCallback := onUpdateCallback rm; config := config rm |} in
  if isConnected rm' then (rm', subscribeToSymbols rm' w) else (rm', w).

Record Status := {
  status_isConnected : bool;
  status_reconnectAttempts : nat;
  status_symbolsCount : nat;
  status_socketId : option string
}.

Definition getStatus (rm : Manager) : Status :=
  {| status_isConnected := isConnected rm;
     status_reconnectAttempts := reconnectAttempts rm;
     status_symbolsCount := length (symbols rm);
     status_socketId := socket rm ≫= id |}.

Definition cleanup (st : Manager * World) : Manager * World :=
  let '(rm, w) := st in
  let w' :=
    match socket rm with
    | Some _ =>
        perform (SocketRemoveAllListeners ::
                 (if isConnected rm then [SocketDisconnect] else [])) w
    | None => w
    end in
  ({| socket := None; messageTypes := ∅;
      isConnected := false; reconnectAttempts := reconnectAttempts rm;
      maxReconnectAttempts := maxReconnectAttempts rm; reconnectDelay := reconnectDelay rm;
      symbols := symbols rm; onUpdateCallback := None; config := config rm |}, w').

(** The methods of the class, as commands a caller can issue. *)
Inductive Command :=
| Initialize (newSymbols : list string) (onUpdate : Callback)
             (schemaLoads : bool) (newSocket : Socket)
| UpdateSymbols (newSymbols : list string)
| GetStatus
| Cleanup.

Definition execute (cmd : Command) (st : Manager * World) : Manager * World :=
  match cmd with
  | Initialize newSymbols onUpdate schemaLoads newSocket =>
      match initialize newSymbols onUpdate schemaLoads newSocket st with
      | Returned st' => st'
      | Thrown st' => st'
      end
  | UpdateSymbols newSymbols => updateSymbols newSymbols st
  | GetStatus => st
  | Cleanup => cleanup st
  end.

(** A call on the socket that opens or asks for a connection. *)
Definition isConnectionAttempt (e : Effect) : bool :=
  match e with IoConnect _ _ => true | _ => false end.

End Manager.
Arguments MatchPrice : clear implicits.
Arguments PriceLevel : clear implicits.
Arguments BidAsk : clear implicits.
Arguments Index : clear implicits.
Arguments DecodedMessage : clear implicits.
Arguments Effect : clear implicits.
Arguments World : clear implicits.
Arguments Manager : clear implicits.
Arguments Callback : clear implicits.
Arguments Command : clear implicits.
End RealtimeManager.

(** ** data-initializer.js: the bulk load of one exchange *)

Module DataInitializer.

(** The answer of one of the two requests: the HTTP status and the body. *)
Record Response (A : Type) := {
  status : nat;
  data : A
}.
Arguments status {A} r.
Arguments data {A} r.

Section Loader.
Context {num : Type} `{!Js.Number num}.

(** [model.k] *)
Local Notation "model .@ k" := (Js.get model k)
  (at level 2, left associativity, format "model .@ k").

(** [v || 0] *)
Definition orZero (v : Js.val num) : Js.val num := Js.or v (Js.VNum (Js.of_Z 0)).

(** [None] is the TypeError of [model.avgp.toFixed] on a truthy value
    that is not a number. *)
Definition transformCompressedToStockData (model : Js.obj num) : option (Js.obj num) :=
  let priceChange := Js.minus (model.@"c") (model.@"ref") in
  let priceChangePercent :=
    if Js.greater (model.@"ref") (Js.VNum (Js.of_Z 0))
    then Js.times (Js.divide priceChange (model.@"ref")) (Js.VNum (Js.of_Z 100))
    else Js.VNum (Js.of_Z 0) in
  match Js.toFixed0_if_truthy (model.@"avgp") with
  | None => None
  | Some tb =>
      Some (Js.literal
        [("maCK", model.@"s");
         ("tran", model.@"cei");
         ("tc", model.@"ref");
         ("san", model.@"flo");
         ("duMuaGia3", orZero (model.@"bp3"));
         ("duMuaKL3", orZero (model.@"bv3"));
         ("duMuaGia2", orZero (model.@"bp2"));
         ("duMuaKL2", orZero (model.@"bv2"));
         ("duMuaGia1", orZero (model.@"bp1"));
         ("duMuaKL1", orZero (model.@"bv1"));
         ("khopLenhGia", orZero (model.@"c"));
         ("khopLenhKL", orZero (model.@"mv"));
         ("khopLenhChange", priceChange);
         ("khopLenhPercent", priceChangePercent);
         ("khopLenhKLGD", orZero (model.@"vo"));
         ("khopLenhGTGD", orZero (model.@"va"));
         ("duBanGia1", orZero (model.@"ap1"));
         ("duBanKL1", orZero (model.@"av1"));
         ("duBanGia2", orZero (model.@"ap2"));
         ("duBanKL2", orZero (model.@"av2"));
         ("duBanGia3", orZero (model.@"ap3"));
         ("duBanKL3", orZero (model.@"av3"));
         ("cao", orZero (model.@"h"));
         ("tb", tb);
         ("thap", orZero (model.@"l"));
         ("nnMua", orZero (model.@"frbv"));
         ("nnBan", orZero (model.@"frsv"));
         ("nnRoom", orZero (model.@"frcrr"));
         ("klgdTT", orZero (model.@"vo"));
         ("gtgdTT", orZero (model.@"va"))])
  end.

(** [stockDataArray.forEach(item => stockDataMap[item.s] = transform(item))];
    [None] when a transform raises. *)
Fixpoint buildStockDataMap (stockDataArray : list (Js.obj num))
    (stockDataMap : gmap string (Js.obj num)) : option (gmap string (Js.obj num)) :=
  match stockDataArray with
  | [] => Some stockDataMap
  | item :: rest =>
      match transformCompressedToStockData item with
      | None => None
      | Some stockData =>
          buildStockDataMap rest (<[Js.ToPropertyKey (item.@"s") := stockData]> stockDataMap)
      end
  end.

(** [loadExchangeData]: what it does to the cache, given the two
    answers; [symbolsResponse] holds the [symbol] of every listed item.
    An error leaves the cache as it is at that point. *)
Definition loadExchangeData (exchange : string)
    (symbolsResponse : Response (list string))
    (stockDataResponse : Response (list (Js.obj num)))
    (c : CacheManager.Cache (Js.val num))
    : RealtimeManager.outcome (CacheManager.Cache (Js.val num)) :=
  if negb (status symbolsResponse =? 200)%nat then RealtimeManager.Thrown c
  else
    let symbolList := data symbolsResponse in
    let c1 := CacheManager.setSymbolsByGroup exchange symbolList c in
    if negb (status stockDataResponse =? 200)%nat then RealtimeManager.Thrown c1
    else
      match buildStockDataMap (data stockDataResponse) ∅ with
      | None => RealtimeManager.Thrown c1
      | Some stockDataMap =>
          RealtimeManager.Returned (CacheManager.setMultipleStockData stockDataMap c1)
      end.

(** Step 3 of [initialize]: [for (const exchange of exchanges) await
    this.loadExchangeData(exchange)], given the answers to the requests
    of each exchange; the first error ends the loop. *)
Fixpoint loadExchanges
    (answers : list (string * (Response (list string) * Response (list (Js.obj num)))))
    (c : CacheManager.Cache (Js.val num))
    : RealtimeManager.outcome (CacheManager.Cache (Js.val num)) :=
  match answers with
  | [] => RealtimeManager.Returned c
  | (exchange, (symbolsResponse, stockDataResponse)) :: rest =>
      match loadExchangeData exchange symbolsResponse stockDataResponse c with
      | RealtimeManager.Returned c1 => loadExchanges rest c1
      | RealtimeManager.Thrown c1 => RealtimeManager.Thrown c1
      end
  end.

Definition exchanges : list string := ["HOSE"; "HNX"; "UPCOM"; "VN30"; "HNX30"].

Definition getAllSymbolsForRealtime (c : CacheManager.Cache (Js.val num)) : list string :=
  let allSymbols :=
    foldl (λ allSymbols exchange,
             (allSymbols ++ CacheManager.getSymbolsByGroup exchange c)%list) [] exchanges in
  let marketIndexes := ["VN30"; "VNINDEX"; "HNX30"; "HNXIndex"; "HNXUpcomIndex"] in
  Js.distinct (allSymbols ++ marketIndexes)%list.

End Loader.
End DataInitializer.

(** ** server.js: the wiring done by [startServer] *)

Module Server.
Section Wiring.
Context {num : Type} `{!Js.Number num}.
(** [JSON.stringify] on a decoded message. *)
Context (JSON_stringify : RealtimeManager.DecodedMessage num → string).

(** What the update callback closes over: the broadcast service, and
    the console and the client sockets it writes to. *)
Record Outside := {
  broadcastService : BroadcastService.Service;
  sent : list BroadcastService.Effect  (* oldest first *)
}.

(** [(message, type) => broadcastService.broadcastUpdate(message.symbol, type, message)] *)
Definition onUpdate : RealtimeManager.Callback num Outside :=
  λ message type w,
    let out := RealtimeManager.env w in
    RealtimeManager.Returned
      {| RealtimeManager.cache := RealtimeManager.cache w;
         RealtimeManager.effects := RealtimeManager.effects w;
         RealtimeManager.env :=
           {| broadcastService := broadcastService out;
              sent := sent out ++
                      BroadcastService.broadcastUpdate JSON_stringify
                        (RealtimeManager.symbol message) type message
                        (broadcastService out) |} |}.

(** Step 3 of [startServer]: a fresh manager, initialized with the
    symbols of the cache and the callback above. *)
Definition startRealtime (allSymbols : list string) (schemaLoads : bool)
    (newSocket : RealtimeManager.Socket) (w : RealtimeManager.World num Outside)
    : RealtimeManager.outcome (RealtimeManager.Manager num Outside * RealtimeManager.World num Outside) :=
  RealtimeManager.initialize allSymbols onUpdate schemaLoads newSocket
    (RealtimeManager.constructor, w).

(** *** The REST endpoints that serve the cache

    A handler is a function from the request and the cache to the
    answer [res.status(code).json(...)].  [express.json()] makes
    [req.body] an object, so the destructuring of the body does not
    raise; the console lines are left out.  Where an answer lists the
    entries of an object, it does so in the order of [Js.entries]. *)

(** [req.body.symbols], as [Array.isArray] sees it. *)
Inductive SymbolsArg :=
| NotArray
| Array (symbols : list string).

Record RequestBody := {
  body_symbols : SymbolsArg;
  body_group : Js.val num
}.

Inductive ReplyBody :=
| Error (error : string)                 (* { error: ... } *)
| Items (items : list (Js.obj num)).     (* an array of objects *)

Record Reply := {
  statusCode : nat;
  payload : ReplyBody
}.

(** [cacheManager.getSymbolsByGroup(group)] for a group as received:
    the groups of the cache are keyed by strings, so any other value
    finds nothing. *)
Definition symbolsOfGroup (group : Js.val num) (c : CacheManager.Cache (Js.val num))
    : list string :=
  match group with
  | Js.VStr g => CacheManager.getSymbolsByGroup g c
  | _ => []
  end.

(** GET /price/symbols/getByGroup?group=<GROUP> *)
Definition getByGroup (group : Js.val num) (c : CacheManager.Cache (Js.val num)) : Reply :=
  if negb (Js.ToBoolean group) then
    {| statusCode := 400; payload := Error "Missing group parameter" |}
  else if negb (CacheManager.isReady c) then
    {| statusCode := 503; payload := Error "Cache not ready" |}
  else
    {| statusCode := 200;
       payload := Items ((λ symbol, Js.literal [("symbol", Js.VStr symbol)])
                         <$> symbolsOfGroup group c) |}.

(** [([symbol, data]) => ({ s: symbol, cei: data.tran, ... })] *)
Definition compressItem (entry : string * Js.obj num) : Js.obj num :=
  let symbol := entry.1 in
  let data := entry.2 in
  Js.literal
    [("s", Js.VStr symbol);
     ("cei", Js.get data "tran");
     ("ref", Js.get data "tc");
     ("flo", Js.get data "san");
     ("bp1", Js.get data "duMuaGia1");
     ("bv1", Js.get data "duMuaKL1");
     ("bp2", Js.get data "duMuaGia2");
     ("bv2", Js.get data "duMuaKL2");
     ("bp3", Js.get data "duMuaGia3");
     ("bv3", Js.get data "duMuaKL3");
     ("ap1", Js.get data "duBanGia1");
     ("av1", Js.get data "duBanKL1");
     ("ap2", Js.get data "duBanGia2");
     ("av2", Js.get data "duBanKL2");
     ("ap3", Js.get data "duBanGia3");
     ("av3", Js.get data "duBanKL3");
     ("c", Js.get data "khopLenhGia");
     ("mv", Js.get data "khopLenhKL");
     ("vo", Js.get data "khopLenhKLGD");
     ("va", Js.get data "khopLenhGTGD");
     ("h", Js.get data "cao");
     ("l", Js.get data "thap");
     ("avgp", Js.get data "tb");
     ("frbv", Js.get data "nnMua");
     ("frsv", Js.get data "nnBan");
     ("frcrr", Js.get data "nnRoom")].

(** POST /price/v3/symbols/w/compress/getList *)
Definition compressedGetList (body : RequestBody) (c : CacheManager.Cache (Js.val num))
    : Reply :=
  if negb (CacheManager.isReady c) then
    {| statusCode := 503; payload := Error "Cache not ready" |}
  else if Js.ToBoolean (body_group body) then
    {| statusCode := 200;
       payload := Items (compressItem <$>
                         Js.entries (CacheManager.getStockDataBySymbols
                                       (symbolsOfGroup (body_group body) c) c)) |}
  else
    match body_symbols body with
    | Array symbols =>
        {| statusCode := 200;
           payload := Items (compressItem <$>
                             Js.entries (CacheManager.getStockDataBySymbols symbols c)) |}
    | NotArray =>
        {| statusCode := 400;
           payload := Error "Must provide either symbols array or group" |}
    end.

(** POST /price/marketIndex/getList *)
Definition marketIndexGetList (body : RequestBody) (c : CacheManager.Cache (Js.val num))
    : Reply :=
  match body_symbols body with
  | NotArray => {| statusCode := 400; payload := Error "Symbols must be an array" |}
  | Array symbols =>
      if negb (CacheManager.isReady c) then
        {| statusCode := 503; payload := Error "Cache not ready" |}
      else
        {| statusCode := 200;
           payload := Items (Js.entries (CacheManager.getMarketIndexes symbols c)).*2 |}
  end.

End Wiring.
Arguments Outside : clear implicits.
Arguments RequestBody : clear implicits.
Arguments ReplyBody : clear implicits.
Arguments Reply : clear implicits.
End Server.

(** ** Concrete instances, for examples *)

Module Samples.

(** Integer-valued numbers: enough to run the handlers on examples. *)
#[global] Instance intNumber : Js.Number Z := {|
  Js.sub := Z.sub;
  Js.div := Z.div;
  Js.mul := Z.mul;
  Js.of_Z := λ z, z;
  Js.NaN := 0%Z;
  Js.of_string := λ _, 0%Z;
  Js.truthy := λ z, negb (z =? 0)%Z;
  Js.gt := Z.gtb;
  Js.to_string := λ z, pretty z;
  Js.toFixed0 := λ z, z
|}.

(** A stand-in for [JSON.stringify]: the symbol between braces. *)
Definition stringify (message : RealtimeManager.DecodedMessage Z) : string :=
  "{" +:+ RealtimeManager.symbol message +:+ "}".

Definition indexOf (sym : string) : RealtimeManager.Index Z :=
  {| RealtimeManager.ix_code := Js.VStr sym;
     RealtimeManager.ix_symbol := sym;
     RealtimeManager.ix_price := Js.VNum 1250%Z;
     RealtimeManager.ix_change := Js.VNum 3%Z;
     RealtimeManager.ix_changePercent := Js.VNum 0%Z;
     RealtimeManager.ix_totalShares := Js.VStr "1000";
     RealtimeManager.ix_totalValue := Js.VStr "2000";
     RealtimeManager.ix_totalStockIncrease := Js.VNum 10%Z;
     RealtimeManager.ix_totalStockDecline := Js.VNum 5%Z;
     RealtimeManager.ix_totalStockNoChange := Js.VNum 2%Z;
     RealtimeManager.ix_totalStockCeiling := Js.VNum 1%Z;
     RealtimeManager.ix_totalStockFloor := Js.VNum 0%Z;
     RealtimeManager.ix_estimatedChange := Js.VNum 0%Z;
     RealtimeManager.ix_estimatedFsp := Js.VNum 0%Z;
     RealtimeManager.ix_time := Js.VStr "09:15:00" |}.

Definition matchPriceOf (sym : string) : RealtimeManager.MatchPrice Z :=
  {| RealtimeManager.mp_symbol := sym;
     RealtimeManager.mp_matchPrice := 105%Z;
     RealtimeManager.mp_matchVol := Js.VStr "300";
     RealtimeManager.mp_referencePrice := 100%Z;
     RealtimeManager.mp_accumulatedVolume := Js.VStr "9000";
     RealtimeManager.mp_accumulatedValue := Js.VStr "945000";
     RealtimeManager.mp_currentRoom := Js.VStr "1";
     RealtimeManager.mp_foreignBuyVolume := Js.VStr "2";
     RealtimeManager.mp_foreignSellVolume := Js.VStr "3";
     RealtimeManager.mp_avgMatchPrice := 104%Z;
     RealtimeManager.mp_highest := Js.VNum 106%Z;
     RealtimeManager.mp_lowest := Js.VNum 99%Z |}.

(** A stand-in for the protobuf decoder: the payload is the symbol, and
    a payload starting with ['!'] does not decode. *)
Definition decode (messageType : RealtimeManager.MessageType) (data : string)
    : option (RealtimeManager.DecodedMessage Z) :=
  if String.prefix "!" data then None
  else
    Some match messageType with
         | RealtimeManager.IndexMessage => RealtimeManager.OfIndex (indexOf data)
         | RealtimeManager.MatchPriceMessage => RealtimeManager.OfMatchPrice (matchPriceOf data)
         | RealtimeManager.BidAskMessage =>
             RealtimeManager.OfBidAsk
               {| RealtimeManager.ba_symbol := data;
                  RealtimeManager.ba_bidPrices := [];
                  RealtimeManager.ba_askPrices := [] |}
         | other => RealtimeManager.OfOther other data
         end.

Definition openSocket : BroadcastService.Socket :=
  {| BroadcastService.connected := true; BroadcastService.emitThrows := false |}.

Definition upstreamSocket : RealtimeManager.Socket :=
  {| RealtimeManager.id := None; RealtimeManager.emitThrows := false |}.

(** A Hub with one connected client, ["A"], subscribed to ["VIC"]. *)
Definition hubWithA : BroadcastService.Service :=
  BroadcastService.run
    [BroadcastService.Connection "A" openSocket;
     BroadcastService.Subscription "A" "match-price" (BroadcastService.Symbols ["VIC"])].

Definition world : RealtimeManager.World Z Server.Outside :=
  {| RealtimeManager.cache := CacheManager.constructor;
     RealtimeManager.effects := [];
     RealtimeManager.env := {| Server.broadcastService := hubWithA; Server.sent := [] |} |}.

(** The manager and the world once step 3 of [startServer] has succeeded. *)
Definition started
    : RealtimeManager.Manager Z Server.Outside * RealtimeManager.World Z Server.Outside :=
  match Server.startRealtime stringify ["VIC"; "VHM"] true upstreamSocket world with
  | RealtimeManager.Returned st => st
  | RealtimeManager.Thrown st => st
  end.

(** ... and after five failed connection attempts in a row. *)
Definition exhausted
    : RealtimeManager.Manager Z Server.Outside * RealtimeManager.World Z Server.Outside :=
  Nat.iter 5 (RealtimeManager.on decode (RealtimeManager.ConnectError "timeout")) started.

(** A cache holding an old record for ["VIC"], and a bulk-load payload for it. *)
Definition oldRecord : gmap string Z :=
  Js.literal [("ref", 90%Z); ("ceiling", 99%Z); ("khopLenhGia", 95%Z)].

Definition newRecord : gmap string Z :=
  Js.literal [("ref", 100%Z); ("ceiling", 110%Z)].

Definition cacheWithVIC : CacheManager.Cache Z :=
  CacheManager.setStockData "VIC" oldRecord CacheManager.constructor.

Definition hosePayload : gmap string (gmap string Z) :=
  Js.literal [("VIC", newRecord)].

(** The state of the world after [updateCache] has handled a message. *)
Definition afterEvent (message : RealtimeManager.DecodedMessage Z) (type : string)
    : RealtimeManager.World Z Server.Outside :=
  match RealtimeManager.updateCache message type world with
  | RealtimeManager.Returned w1 => w1
  | RealtimeManager.Thrown w1 => w1
  end.

(** An order book with a single buy level and no sell level. *)
Definition thinBook : RealtimeManager.BidAsk Z :=
  {| RealtimeManager.ba_symbol := "VIC";
     RealtimeManager.ba_bidPrices :=
       [{| RealtimeManager.price := Js.VNum 104%Z; RealtimeManager.volume := Js.VNum 10%Z |}];
     RealtimeManager.ba_askPrices := [] |}.

(** Items of an upstream stock-data answer, and answers to the two
    requests of [loadExchangeData]. *)
Definition itemOf (sym : string) (close : Z) : Js.obj Z :=
  Js.literal
    [("s", Js.VStr sym); ("cei", Js.VNum 110%Z); ("ref", Js.VNum 100%Z);
     ("flo", Js.VNum 90%Z); ("c", Js.VNum close); ("bp1", Js.VNum 104%Z);
     ("bv1", Js.VNum 10%Z); ("avgp", Js.VNum 103%Z)].

Definition symbolsAnswer : DataInitializer.Response (list string) :=
  {| DataInitializer.status := 200; DataInitializer.data := ["VIC"; "VHM"] |}.

Definition stockAnswer : DataInitializer.Response (list (Js.obj Z)) :=
  {| DataInitializer.status := 200;
     DataInitializer.data := [itemOf "VIC" 101%Z; itemOf "VIC" 105%Z] |}.

Definition failedAnswer : DataInitializer.Response (list (Js.obj Z)) :=
  {| DataInitializer.status := 500; DataInitializer.data := [] |}.

(** An initialized cache that knows one symbol, and the same cache after
    the load of HOSE. *)
Definition knownSymbols : CacheManager.Cache (Js.val Z) :=
  {| CacheManager.symbols := Js.literal [("VIC", Js.literal [("symbol", Js.VStr "VIC")])];
     CacheManager.stockData := ∅;
     CacheManager.symbolsByGroup := ∅;
     CacheManager.marketIndexes := ∅;
     CacheManager.companies := [];
     CacheManager.isInitialized := true;
     CacheManager.stats :=
       {| CacheManager.symbolsCount := 1; CacheManager.stockDataCount := 0;
          CacheManager.groupsCount := 0; CacheManager.marketIndexesCount := 0;
          CacheManager.companiesCount := 0 |} |}.

(** A ready cache: one known symbol, listed in HOSE, with a record. *)
Definition readyCache : CacheManager.Cache (Js.val Z) :=
  {| CacheManager.symbols := Js.literal [("VIC", Js.literal [("symbol", Js.VStr "VIC")])];
     CacheManager.stockData :=
       Js.literal [("VIC", Js.literal [("tran", Js.VNum 110%Z); ("tc", Js.VNum 100%Z)])];
     CacheManager.symbolsByGroup := Js.literal [("HOSE", ["VIC"])];
     CacheManager.marketIndexes := ∅;
     CacheManager.companies := [];
     CacheManager.isInitialized := true;
     CacheManager.stats :=
       {| CacheManager.symbolsCount := 1; CacheManager.stockDataCount := 1;
          CacheManager.groupsCount := 1; CacheManager.marketIndexesCount := 0;
          CacheManager.companiesCount := 0 |} |}.

Definition afterLoad (stockDataResponse : DataInitializer.Response (list (Js.obj Z)))
    : CacheManager.Cache (Js.val Z) :=
  match DataInitializer.loadExchangeData "HOSE" symbolsAnswer stockDataResponse
          knownSymbols with
  | RealtimeManager.Returned c => c
  | RealtimeManager.Thrown c => c
  end.

Definition builtMap : gmap string (Js.obj Z) :=
  default ∅ (DataInitializer.buildStockDataMap (DataInitializer.data stockAnswer) ∅).

Definition transformed (model : Js.obj Z) : Js.obj Z :=
  default ∅ (DataInitializer.transformCompressedToStockData model).

End Samples.

(** ** The vocabulary of the specification *)

Module Spec.
Section Snapshot.
Context {val : Type}.

(** The value field [f] gets from a sequence of partial updates, in the
    words of the specification: that of the last update mentioning [f],
    if any. *)
Fixpoint lastWrite (f : string) (updates : list (gmap string val)) : option val :=
  match updates with
  | [] => None
  | update :: rest =>
      match lastWrite f rest with
      | Some v => Some v
      | None => update !! f
      end
  end.

(** The partial updates of a feed, applied in arrival order to one symbol. *)
Definition applyUpdates (symbol : string) (updates : list (gmap string val))
    (c : CacheManager.Cache val) : CacheManager.Cache val :=
  foldl (λ c' update, CacheManager.updateStockData symbol update c') c updates.

End Snapshot.

Section Hub.
Implicit Types (h : BroadcastService.Service).

(** The two indexes are mutual inverses. *)
Definition mutualInverses h : Prop :=
  ∀ clientId symbol,
    clientId ∈ BroadcastService.subscribers h symbol
    ↔ symbol ∈ BroadcastService.interests h clientId.

(** The symbol index holds no empty subscriber set. *)
Definition noEmptyEntries h : Prop :=
  ∀ symbol subscribers,
    BroadcastService.symbolSubscribers h !! symbol = Some subscribers → subscribers ≠ ∅.

(** [subscribe(c, S)] followed by [unsubscribe(c, S)]. *)
Definition subscribeThenUnsubscribe (clientId eventType : string) (symbols : list string) h
    : BroadcastService.Service :=
  (BroadcastService.handleUnsubscription clientId eventType (BroadcastService.Symbols symbols)
     (BroadcastService.handleSubscription clientId eventType
        (BroadcastService.Symbols symbols) h).1).1.

(** A currently-connected client: its socket is known and open. *)
Definition isOpen h (clientId : string) : bool :=
  match BroadcastService.connectedClients h !! clientId with
  | Some socket => BroadcastService.connected socket
  | None => false
  end.

(** The calls of [socket.emit] among some effects, in order: receiver,
    event name and bytes. *)
Definition emits (effects : list BroadcastService.Effect)
    : list (string * string * string) :=
  omap (λ e, match e with
             | BroadcastService.Emit clientId eventType binaryData =>
                 Some (clientId, eventType, binaryData)
             | _ => None
             end) effects.

(** The calls of [convertToBinaryData] among some effects: their results. *)
Definition conversions (effects : list BroadcastService.Effect) : list string :=
  omap (λ e, match e with
             | BroadcastService.ConvertToBinaryData binaryData => Some binaryData
             | _ => None
             end) effects.
End Hub.

Section Feed.
Context {num : Type} `{!Js.Number num} {Env : Type}.
Context (decode : RealtimeManager.MessageType → string
                  → option (RealtimeManager.DecodedMessage num)).

(** An effect that only writes to the console. *)
Definition isConsole (e : RealtimeManager.Effect num) : bool :=
  match e with
  | RealtimeManager.ConsoleLog _ _
  | RealtimeManager.ConsoleWarn _
  | RealtimeManager.ConsoleError _ => true
  | _ => false
  end.

(** [n] consecutive failed connection attempts. *)
Fixpoint connectErrors (n : nat)
    (st : RealtimeManager.Manager num Env * RealtimeManager.World num Env)
    : RealtimeManager.Manager num Env * RealtimeManager.World num Env :=
  match n with
  | 0 => st
  | S n' => connectErrors n' (RealtimeManager.on decode (RealtimeManager.ConnectError "timeout") st)
  end.
End Feed.

(** The fields of a stock record a trade-match event writes, those an
    order-book event writes, and those of a bulk-loaded record. *)
Definition tradeFields : list string :=
  ["khopLenhGia"; "khopLenhKL"; "khopLenhChange"; "khopLenhPercent"; "khopLenhKLGD";
   "khopLenhGTGD"; "gtgdTT"; "nnRoom"; "nnMua"; "nnBan"; "tb"; "cao"; "thap"].

Definition orderBookFields : list string :=
  ["duMuaGia1"; "duMuaKL1"; "duMuaGia2"; "duMuaKL2"; "duMuaGia3"; "duMuaKL3";
   "duBanGia1"; "duBanKL1"; "duBanGia2"; "duBanKL2"; "duBanGia3"; "duBanKL3"].

Definition bulkFields : list string :=
  ["maCK"; "tran"; "tc"; "san";
   "duMuaGia3"; "duMuaKL3"; "duMuaGia2"; "duMuaKL2"; "duMuaGia1"; "duMuaKL1";
   "khopLenhGia"; "khopLenhKL"; "khopLenhChange"; "khopLenhPercent";
   "khopLenhKLGD"; "khopLenhGTGD";
   "duBanGia1"; "duBanKL1"; "duBanGia2"; "duBanKL2"; "duBanGia3"; "duBanKL3";
   "cao"; "tb"; "thap"; "nnMua"; "nnBan"; "nnRoom"; "klgdTT"; "gtgdTT"].

(** The fields of the record a realtime index event stores. *)
Definition indexFields : list string :=
  ["code"; "symbol"; "price"; "change"; "changePercent"; "totalShares"; "totalValue";
   "totalStockIncrease"; "totalStockDecline"; "totalStockNoChange"; "totalStockCeiling";
   "totalStockFloor"; "estimatedChange"; "estimatedFsp"; "time"; "messageType";
   "sendingTime"].

(** The price and volume fields of buy level [i] and of sell level [i]
    (counted from 0). *)
Definition buyFields (i : nat) : string * string :=
  match i with
  | 0 => ("duMuaGia1", "duMuaKL1")
  | 1 => ("duMuaGia2", "duMuaKL2")
  | _ => ("duMuaGia3", "duMuaKL3")
  end.

(** The compressed names of the prices, volumes and counters of a
    record, as the upstream API and the compressed endpoint spell them. *)
Definition compressedQuantities : list string :=
  ["bp1"; "bv1"; "bp2"; "bv2"; "bp3"; "bv3"; "ap1"; "av1"; "ap2"; "av2"; "ap3"; "av3";
   "c"; "mv"; "vo"; "va"; "h"; "l"; "frbv"; "frsv"; "frcrr"].

Definition sellFields (i : nat) : string * string :=
  match i with
  | 0 => ("duBanGia1", "duBanKL1")
  | 1 => ("duBanGia2", "duBanKL2")
  | _ => ("duBanGia3", "duBanKL3")
  end.
End Spec.

(** * Properties *)

(** ** Snapshot: partial updates and bulk load *)

Section SnapshotProperties.
Context {val : Type}.
Implicit Types (c : CacheManager.Cache val) (symbol f : string).
Implicit Types (update data : gmap string val).

Lemma stockData_setStockData symbol data c :
  CacheManager.stockData (CacheManager.setStockData symbol data c)
  = <[symbol := data]> (CacheManager.stockData c).
Proof. reflexivity. Qed.

Lemma field_updateStockData symbol update c f :
  CacheManager.field (CacheManager.updateStockData symbol update c) symbol f
  = match update !! f with
    | Some v => Some v
    | None => CacheManager.field c symbol f
    end.
Proof.
  unfold CacheManager.field, CacheManager.updateStockData, Js.spread2.
  rewrite stockData_setStockData, lookup_insert_eq. simpl.
  rewrite lookup_union.
  destruct (update !! f) as [v|] eqn:Hu.
  - by destruct (default ∅ (CacheManager.stockData c !! symbol) !! f).
  - rewrite (left_id_L None union).
    destruct (CacheManager.stockData c !! symbol) as [old|]; simpl; [done|].
    apply lookup_empty.
Qed.

(** C1. For every symbol, every cache and every finite sequence of
    partial updates applied to the symbol through [updateStockData], each
    field of the resulting record holds the value of the last update that
    mentions it, and a field no update mentions is as it was before
    (absent if it was never set). *)
Theorem partial_updates_last_write_wins symbol (updates : list (gmap string val)) c f :
  CacheManager.field (Spec.applyUpdates symbol updates c) symbol f
  = match Spec.lastWrite f updates with
    | Some v => Some v
    | None => CacheManager.field c symbol f
    end.
Proof.
  unfold Spec.applyUpdates. revert c.
  induction updates as [|update rest IH]; intros c; simpl; [done|].
  rewrite IH, field_updateStockData.
  by destruct (Spec.lastWrite f rest).
Qed.

Lemma stockData_foldl_setStockData (l : list (string * gmap string val)) c :
  NoDup l.*1 →
  CacheManager.stockData
    (foldl (λ c' entry, CacheManager.setStockData entry.1 entry.2 c') c l)
  = list_to_map l ∪ CacheManager.stockData c.
Proof.
  revert c. induction l as [|[k v] l IH]; intros c Hnd; simpl.
  - by rewrite (left_id_L ∅ (∪)).
  - apply NoDup_cons in Hnd as [Hk Hnd].
    rewrite IH, stockData_setStockData by done.
    rewrite <- insert_union_r, insert_union_l; [done|].
    by apply not_elem_of_list_to_map_1.
Qed.

Lemma stockData_setMultipleStockData (stockDataMap : gmap string (gmap string val)) c :
  CacheManager.stockData (CacheManager.setMultipleStockData stockDataMap c)
  = stockDataMap ∪ CacheManager.stockData c.
Proof.
  unfold CacheManager.setMultipleStockData, Js.entries.
  rewrite stockData_foldl_setStockData by apply NoDup_fst_map_to_list.
  by rewrite list_to_map_to_list.
Qed.

(** C2. For every symbol named in a bulk-load payload,
    [setMultipleStockData] makes the new record the symbol's whole
    record: it is stored as it is, whatever was there before, so a field
    the old record had and the new one lacks is absent afterwards. *)
Theorem bulk_load_replaces (stockDataMap : gmap string (gmap string val)) c symbol data :
  stockDataMap !! symbol = Some data →
  CacheManager.stockData (CacheManager.setMultipleStockData stockDataMap c) !! symbol
    = Some data
  ∧ ∀ old f v,
      CacheManager.stockData c !! symbol = Some old →
      old !! f = Some v →
      data !! f = None →
      CacheManager.field (CacheManager.setMultipleStockData stockDataMap c) symbol f = None.
Proof.
  intros Hin.
  assert (CacheManager.stockData (CacheManager.setMultipleStockData stockDataMap c)
            !! symbol = Some data) as Hnew.
  { rewrite stockData_setMultipleStockData. by apply lookup_union_Some_l. }
  split; [done|].
  intros old f v _ _ Hf. unfold CacheManager.field. by rewrite Hnew.
Qed.

End SnapshotProperties.

Section BulkLoadPath.
Context {num : Type} `{!Js.Number num}.

(** What [loadExchangeData] leaves in the cache when both requests
    succeed: every symbol of the answer holds the record built for it. *)
Lemma loadExchangeData_replaces exchange symbolsResponse stockDataResponse
    (c c' : CacheManager.Cache (Js.val num)) :
  DataInitializer.loadExchangeData exchange symbolsResponse stockDataResponse c
    = RealtimeManager.Returned c' →
  ∃ stockDataMap,
    DataInitializer.buildStockDataMap (DataInitializer.data stockDataResponse) ∅
      = Some stockDataMap
    ∧ CacheManager.stockData c' = stockDataMap ∪ CacheManager.stockData c
    ∧ CacheManager.symbolsByGroup c' !! exchange
      = Some (DataInitializer.data symbolsResponse).
Proof.
  unfold DataInitializer.loadExchangeData.
  destruct (negb (DataInitializer.status symbolsResponse =? 200)%nat); [done|].
  destruct (negb (DataInitializer.status stockDataResponse =? 200)%nat); [done|].
  destruct (DataInitializer.buildStockDataMap _ ∅) as [stockDataMap|]; [|done].
  intros [= <-]. exists stockDataMap. split; [done|].
  rewrite stockData_setMultipleStockData. split; [done|].
  assert (∀ (l : list (string * gmap string (Js.val num))) c0,
            CacheManager.symbolsByGroup
              (foldl (λ c1 entry, CacheManager.setStockData entry.1 entry.2 c1) c0 l)
            = CacheManager.symbolsByGroup c0) as Hgroups.
  { induction l as [|e l IH]; intros c0; simpl; [done|by rewrite IH]. }
  unfold CacheManager.setMultipleStockData. rewrite Hgroups. simpl.
  apply lookup_insert_eq.
Qed.

End BulkLoadPath.

(** ** Hub: the two subscription indexes *)

Section HubIndexes.
Implicit Types (h : BroadcastService.Service) (c s : string) (l : list string).
Implicit Types (ss cs : gmap string (gset string)).

(** How one removal changes the subscriber set read at any symbol. *)
Lemma removeSubscriber_lookup c s ss s' :
  default ∅ (BroadcastService.removeSubscriber c s ss !! s')
  = if decide (s' = s) then default ∅ (ss !! s) ∖ {[c]} else default ∅ (ss !! s').
Proof.
  unfold BroadcastService.removeSubscriber.
  destruct (ss !! s) as [X|] eqn:HX.
  - destruct (decide (size (X ∖ {[c]}) = 0)) as [Hz|Hz].
    + apply size_empty_inv in Hz. apply leibniz_equiv in Hz.
      case_decide as Hs; subst.
      * rewrite lookup_delete_eq. simpl. by rewrite Hz.
      * by rewrite lookup_delete_ne.
    + case_decide as Hs; subst.
      * by rewrite lookup_insert_eq.
      * by rewrite lookup_insert_ne.
  - case_decide as Hs; subst; [|done].
    rewrite ?HX. simpl. by rewrite difference_disjoint_L.
Qed.

Lemma removeSubscriber_nonempty c s ss :
  (∀ s' X, ss !! s' = Some X → X ≠ ∅) →
  ∀ s' X, BroadcastService.removeSubscriber c s ss !! s' = Some X → X ≠ ∅.
Proof.
  intros Hne s' X. unfold BroadcastService.removeSubscriber.
  destruct (ss !! s) as [Y|] eqn:HY; [|by apply Hne].
  destruct (decide (size (Y ∖ {[c]}) = 0)) as [Hz|Hz].
  - intros [_ Hl]%lookup_delete_Some. by eapply Hne.
  - intros [[<- <-]|[_ Hl]]%lookup_insert_Some; [|by eapply Hne].
    intros Hemp. apply Hz. rewrite Hemp. apply size_empty.
Qed.

Lemma subscribers_subscribeSymbol c h s s' :
  BroadcastService.subscribers (BroadcastService.subscribeSymbol c h s) s'
  = if decide (s' = s) then BroadcastService.subscribers h s ∪ {[c]}
    else BroadcastService.subscribers h s'.
Proof.
  unfold BroadcastService.subscribers, BroadcastService.subscribeSymbol. simpl.
  destruct (BroadcastService.symbolSubscribers h !! s) as [X|] eqn:HX;
    case_decide as Hs; subst.
  - by rewrite lookup_alter_eq, HX.
  - by rewrite lookup_alter_ne.
  - by rewrite lookup_alter_eq, lookup_insert_eq.
  - by rewrite lookup_alter_ne, lookup_insert_ne.
Qed.

Lemma clients_subscribeSymbol c h s c' :
  BroadcastService.clientSubscriptions (BroadcastService.subscribeSymbol c h s) !! c'
  = if decide (c' = c)
    then (λ X, X ∪ {[s]}) <$> BroadcastService.clientSubscriptions h !! c
    else BroadcastService.clientSubscriptions h !! c'.
Proof.
  unfold BroadcastService.subscribeSymbol. simpl.
  case_decide; subst; [apply lookup_alter_eq | by apply lookup_alter_ne].
Qed.

Lemma subscribers_subscribe_all c l h s' :
  BroadcastService.subscribers (foldl (BroadcastService.subscribeSymbol c) h l) s'
  = if decide (s' ∈ l) then BroadcastService.subscribers h s' ∪ {[c]}
    else BroadcastService.subscribers h s'.
Proof.
  revert h. induction l as [|s l IH]; intros h; cbn [foldl].
  - case_decide as Hin; [by apply elem_of_nil in Hin | done].
  - rewrite IH, subscribers_subscribeSymbol.
    repeat case_decide; subst; set_solver.
Qed.

Lemma clients_subscribe_all c l h c' :
  BroadcastService.clientSubscriptions (foldl (BroadcastService.subscribeSymbol c) h l) !! c'
  = if decide (c' = c)
    then (λ X, X ∪ list_to_set l) <$> BroadcastService.clientSubscriptions h !! c
    else BroadcastService.clientSubscriptions h !! c'.
Proof.
  revert h. induction l as [|s l IH]; intros h; simpl.
  - case_decide; subst; [|done].
    destruct (BroadcastService.clientSubscriptions h !! c); simpl; [|done].
    f_equal. set_solver.
  - rewrite IH. case_decide; subst; [|by rewrite clients_subscribeSymbol, decide_False].
    rewrite clients_subscribeSymbol, decide_True by done.
    destruct (BroadcastService.clientSubscriptions h !! c); simpl; [|done].
    f_equal. set_solver.
Qed.

Lemma connected_subscribe_all c l h :
  BroadcastService.connectedClients (foldl (BroadcastService.subscribeSymbol c) h l)
  = BroadcastService.connectedClients h.
Proof. revert h. induction l as [|s l IH]; intros h; simpl; [done|by rewrite IH]. Qed.

Lemma subscribers_unsubscribe_all c l h s' :
  BroadcastService.subscribers (foldl (BroadcastService.unsubscribeSymbol c) h l) s'
  = if decide (s' ∈ l) then BroadcastService.subscribers h s' ∖ {[c]}
    else BroadcastService.subscribers h s'.
Proof.
  revert h. induction l as [|s l IH]; intros h; cbn [foldl].
  - case_decide as Hin; [by apply elem_of_nil in Hin | done].
  - rewrite IH. unfold BroadcastService.subscribers, BroadcastService.unsubscribeSymbol.
    simpl. rewrite removeSubscriber_lookup.
    repeat case_decide; subst; set_solver.
Qed.

Lemma clients_unsubscribe_all c l h c' :
  BroadcastService.clientSubscriptions (foldl (BroadcastService.unsubscribeSymbol c) h l) !! c'
  = if decide (c' = c)
    then (λ X, X ∖ list_to_set l) <$> BroadcastService.clientSubscriptions h !! c
    else BroadcastService.clientSubscriptions h !! c'.
Proof.
  revert h. induction l as [|s l IH]; intros h; simpl.
  - case_decide; subst; [|done].
    destruct (BroadcastService.clientSubscriptions h !! c); simpl; [|done].
    f_equal. set_solver.
  - rewrite IH. unfold BroadcastService.unsubscribeSymbol. simpl.
    case_decide; subst; [|by rewrite lookup_alter_ne].
    rewrite lookup_alter_eq.
    destruct (BroadcastService.clientSubscriptions h !! c); simpl; [|done].
    f_equal. set_solver.
Qed.

Lemma connected_unsubscribe_all c l h :
  BroadcastService.connectedClients (foldl (BroadcastService.unsubscribeSymbol c) h l)
  = BroadcastService.connectedClients h.
Proof. revert h. induction l as [|s l IH]; intros h; simpl; [done|by rewrite IH]. Qed.

Lemma removeSubscriber_all c l ss s' :
  default ∅ (foldl (λ acc s, BroadcastService.removeSubscriber c s acc) ss l !! s')
  = if decide (s' ∈ l) then default ∅ (ss !! s') ∖ {[c]} else default ∅ (ss !! s').
Proof.
  revert ss. induction l as [|s l IH]; intros ss; cbn [foldl].
  - case_decide as Hin; [by apply elem_of_nil in Hin | done].
  - rewrite IH, removeSubscriber_lookup.
    repeat case_decide; subst; set_solver.
Qed.

Lemma removeSubscriber_all_nonempty c l ss :
  (∀ s' X, ss !! s' = Some X → X ≠ ∅) →
  ∀ s' X, foldl (λ acc s, BroadcastService.removeSubscriber c s acc) ss l !! s' = Some X →
          X ≠ ∅.
Proof.
  revert ss. induction l as [|s l IH]; intros ss Hne; simpl; [done|].
  apply IH. by apply removeSubscriber_nonempty.
Qed.

(** The two indexes after each of the four calls. *)
Lemma interests_lookup h c :
  BroadcastService.interests h c = default ∅ (BroadcastService.clientSubscriptions h !! c).
Proof. reflexivity. Qed.

Lemma subscribers_handleSubscription c ev l h s' :
  BroadcastService.subscribers
    (BroadcastService.handleSubscription c ev (BroadcastService.Symbols l) h).1 s'
  = if decide (s' ∈ l) then BroadcastService.subscribers h s' ∪ {[c]}
    else BroadcastService.subscribers h s'.
Proof.
  unfold BroadcastService.handleSubscription. simpl.
  rewrite subscribers_subscribe_all.
  by destruct (BroadcastService.clientSubscriptions h !! c).
Qed.

Lemma clients_handleSubscription c ev l h c' :
  BroadcastService.clientSubscriptions
    (BroadcastService.handleSubscription c ev (BroadcastService.Symbols l) h).1 !! c'
  = if decide (c' = c)
    then Some (BroadcastService.interests h c ∪ list_to_set l)
    else BroadcastService.clientSubscriptions h !! c'.
Proof.
  unfold BroadcastService.handleSubscription, BroadcastService.interests. simpl.
  rewrite clients_subscribe_all.
  destruct (BroadcastService.clientSubscriptions h !! c) as [X|] eqn:HX; simpl.
  - case_decide; subst; [by rewrite HX | done].
  - case_decide; subst; [by rewrite lookup_insert_eq | by rewrite lookup_insert_ne].
Qed.

Lemma subscribers_handleUnsubscription c ev l h s' :
  Spec.mutualInverses h →
  BroadcastService.subscribers
    (BroadcastService.handleUnsubscription c ev (BroadcastService.Symbols l) h).1 s'
  = if decide (s' ∈ l) then BroadcastService.subscribers h s' ∖ {[c]}
    else BroadcastService.subscribers h s'.
Proof.
  intros Hinv. unfold BroadcastService.handleUnsubscription.
  destruct (BroadcastService.clientSubscriptions h !! c) as [X|] eqn:HX; simpl.
  - apply subscribers_unsubscribe_all.
  - case_decide; [|done].
    assert (c ∉ BroadcastService.subscribers h s'); [|set_solver].
    rewrite (Hinv c s'). unfold BroadcastService.interests. rewrite HX. set_solver.
Qed.

Lemma clients_handleUnsubscription c ev l h c' :
  BroadcastService.clientSubscriptions
    (BroadcastService.handleUnsubscription c ev (BroadcastService.Symbols l) h).1 !! c'
  = if decide (c' = c)
    then (λ X, X ∖ list_to_set l) <$> BroadcastService.clientSubscriptions h !! c
    else BroadcastService.clientSubscriptions h !! c'.
Proof.
  unfold BroadcastService.handleUnsubscription.
  destruct (BroadcastService.clientSubscriptions h !! c) as [X|] eqn:HX; simpl.
  - by rewrite clients_unsubscribe_all, HX.
  - case_decide; subst; by rewrite ?HX.
Qed.

Lemma subscribers_handleDisconnection c h s' :
  BroadcastService.subscribers (BroadcastService.handleDisconnection c h) s'
  = if decide (s' ∈ BroadcastService.interests h c)
    then BroadcastService.subscribers h s' ∖ {[c]}
    else BroadcastService.subscribers h s'.
Proof.
  unfold BroadcastService.handleDisconnection, BroadcastService.subscribers,
    BroadcastService.interests.
  destruct (BroadcastService.clientSubscriptions h !! c) as [X|] eqn:HX; simpl.
  - rewrite removeSubscriber_all.
    repeat case_decide; set_solver.
  - case_decide; set_solver.
Qed.

Lemma clients_handleDisconnection c h c' :
  BroadcastService.clientSubscriptions (BroadcastService.handleDisconnection c h) !! c'
  = if decide (c' = c) then None else BroadcastService.clientSubscriptions h !! c'.
Proof.
  unfold BroadcastService.handleDisconnection.
  destruct (BroadcastService.clientSubscriptions h !! c) as [X|] eqn:HX; simpl.
  - case_decide; subst; [apply lookup_delete_eq | by apply lookup_delete_ne].
  - case_decide; subst; done.
Qed.

End HubIndexes.

Section HubInvariant.
Implicit Types (h : BroadcastService.Service) (c s : string) (l : list string).

Lemma nonempty_subscribeSymbol c h s :
  Spec.noEmptyEntries h → Spec.noEmptyEntries (BroadcastService.subscribeSymbol c h s).
Proof.
  intros Hne s' X. unfold BroadcastService.subscribeSymbol. simpl.
  destruct (decide (s' = s)) as [->|Hs].
  - rewrite lookup_alter_eq. intros HX.
    apply fmap_Some in HX as (Y & _ & ->). set_solver.
  - rewrite lookup_alter_ne by done.
    destruct (BroadcastService.symbolSubscribers h !! s); [apply Hne|].
    rewrite lookup_insert_ne by done. apply Hne.
Qed.

Lemma nonempty_subscribe_all c l h :
  Spec.noEmptyEntries h →
  Spec.noEmptyEntries (foldl (BroadcastService.subscribeSymbol c) h l).
Proof.
  revert h. induction l as [|s l IH]; intros h Hne; simpl; [done|].
  by apply IH, nonempty_subscribeSymbol.
Qed.

Lemma nonempty_unsubscribe_all c l h :
  Spec.noEmptyEntries h →
  Spec.noEmptyEntries (foldl (BroadcastService.unsubscribeSymbol c) h l).
Proof.
  revert h. induction l as [|s l IH]; intros h Hne; simpl; [done|].
  apply IH. intros s' X. unfold BroadcastService.unsubscribeSymbol. simpl.
  by apply removeSubscriber_nonempty.
Qed.

Lemma nonempty_handleSubscription c ev data h :
  Spec.noEmptyEntries h →
  Spec.noEmptyEntries (BroadcastService.handleSubscription c ev data h).1.
Proof.
  intros Hne. destruct data as [| |l]; simpl; [done..|].
  apply nonempty_subscribe_all.
  by destruct (BroadcastService.clientSubscriptions h !! c).
Qed.

Lemma nonempty_handleUnsubscription c ev data h :
  Spec.noEmptyEntries h →
  Spec.noEmptyEntries (BroadcastService.handleUnsubscription c ev data h).1.
Proof.
  intros Hne. destruct data as [| |l]; simpl; [done..|].
  destruct (BroadcastService.clientSubscriptions h !! c); simpl; [|done].
  by apply nonempty_unsubscribe_all.
Qed.

Lemma nonempty_handleDisconnection c h :
  Spec.noEmptyEntries h → Spec.noEmptyEntries (BroadcastService.handleDisconnection c h).
Proof.
  intros Hne s' X. unfold BroadcastService.handleDisconnection.
  destruct (BroadcastService.clientSubscriptions h !! c); simpl; [|apply Hne].
  by apply removeSubscriber_all_nonempty.
Qed.

Lemma inverses_handleSubscription c ev data h :
  Spec.mutualInverses h →
  Spec.mutualInverses (BroadcastService.handleSubscription c ev data h).1.
Proof.
  intros Hinv. destruct data as [| |l]; [done..|].
  intros c' s'. specialize (Hinv c' s').
  rewrite subscribers_handleSubscription, interests_lookup, clients_handleSubscription.
  rewrite interests_lookup in Hinv.
  repeat case_decide; subst; simpl; set_solver.
Qed.

Lemma inverses_handleUnsubscription c ev data h :
  Spec.mutualInverses h →
  Spec.mutualInverses (BroadcastService.handleUnsubscription c ev data h).1.
Proof.
  intros Hinv. destruct data as [| |l]; [done..|].
  intros c' s'. pose proof (Hinv c' s') as Hcs.
  rewrite subscribers_handleUnsubscription, interests_lookup,
    clients_handleUnsubscription by done.
  rewrite interests_lookup in Hcs.
  repeat case_decide; subst; simpl;
    destruct (BroadcastService.clientSubscriptions h !! c); simpl in *; set_solver.
Qed.

Lemma inverses_handleDisconnection c h :
  Spec.mutualInverses h → Spec.mutualInverses (BroadcastService.handleDisconnection c h).
Proof.
  intros Hinv c' s'. pose proof (Hinv c' s') as Hcs. pose proof (Hinv c s') as Hc.
  rewrite subscribers_handleDisconnection.
  unfold BroadcastService.interests in *.
  rewrite clients_handleDisconnection.
  repeat case_decide; subst; simpl; set_solver.
Qed.

Lemma step_preserves h op :
  Spec.mutualInverses h ∧ Spec.noEmptyEntries h →
  Spec.mutualInverses (BroadcastService.step h op)
  ∧ Spec.noEmptyEntries (BroadcastService.step h op).
Proof.
  intros [Hinv Hne]. destruct op as [id sock|c ev data|c ev data|c]; simpl.
  - done.
  - auto using inverses_handleSubscription, nonempty_handleSubscription.
  - auto using inverses_handleUnsubscription, nonempty_handleUnsubscription.
  - auto using inverses_handleDisconnection, nonempty_handleDisconnection.
Qed.

Lemma run_preserves (ops : list BroadcastService.Op) :
  Spec.mutualInverses (BroadcastService.run ops)
  ∧ Spec.noEmptyEntries (BroadcastService.run ops).
Proof.
  unfold BroadcastService.run.
  induction ops as [|op ops IH] using rev_ind.
  - split; [intros c s; set_solver | intros s X HX; simpl in HX; by rewrite lookup_empty in HX].
  - rewrite foldl_app. simpl. by apply step_preserves.
Qed.

(** C3. After every sequence of Hub operations (connection, subscribe,
    unsubscribe, disconnect, with any arguments) from the empty Hub, a
    client is in a symbol's subscriber set if and only if the symbol is
    in that client's subscription set. *)
Theorem indexes_mutual_inverses (ops : list BroadcastService.Op) c s :
  c ∈ BroadcastService.subscribers (BroadcastService.run ops) s
  ↔ s ∈ BroadcastService.interests (BroadcastService.run ops) c.
Proof. apply run_preserves. Qed.

End HubInvariant.

Section HubRoundTrip.
Implicit Types (h : BroadcastService.Service) (c s : string) (l : list string).

Lemma nonempty_maps_eq (m1 m2 : gmap string (gset string)) :
  (∀ s X, m1 !! s = Some X → X ≠ ∅) →
  (∀ s X, m2 !! s = Some X → X ≠ ∅) →
  (∀ s, default ∅ (m1 !! s) = default ∅ (m2 !! s)) →
  m1 = m2.
Proof.
  intros H1 H2 Heq. apply map_eq. intros s.
  specialize (H1 s). specialize (H2 s). specialize (Heq s).
  destruct (m1 !! s) as [X|], (m2 !! s) as [Y|]; simpl in *; subst; try done.
  - by destruct (H1 ∅).
  - by destruct (H2 ∅).
Qed.

Lemma connected_handleSubscription c ev data h :
  BroadcastService.connectedClients (BroadcastService.handleSubscription c ev data h).1
  = BroadcastService.connectedClients h.
Proof.
  destruct data as [| |l]; simpl; [done..|].
  rewrite connected_subscribe_all.
  by destruct (BroadcastService.clientSubscriptions h !! c).
Qed.

Lemma connected_handleUnsubscription c ev data h :
  BroadcastService.connectedClients (BroadcastService.handleUnsubscription c ev data h).1
  = BroadcastService.connectedClients h.
Proof.
  destruct data as [| |l]; simpl; [done..|].
  destruct (BroadcastService.clientSubscriptions h !! c); simpl; [|done].
  apply connected_unsubscribe_all.
Qed.

(** C4, as stated, fails in two ways.  A client that already holds
    ["VIC"] subscribes to it again and then unsubscribes: both indexes
    have lost the earlier subscription.  A client without any
    subscription subscribes and unsubscribes: the client index keeps an
    entry for it, holding the empty set. *)
Lemma subscribe_unsubscribe_not_identity :
  let h := BroadcastService.run
             [BroadcastService.Connection "A" Samples.openSocket;
              BroadcastService.Subscription "A" "match-price"
                (BroadcastService.Symbols ["VIC"])] in
  let h' := Spec.subscribeThenUnsubscribe "A" "match-price" ["VIC"] h in
  let e := BroadcastService.run [BroadcastService.Connection "B" Samples.openSocket] in
  let e' := Spec.subscribeThenUnsubscribe "B" "bid-ask" ["VHM"] e in
  (BroadcastService.symbolSubscribers h !! "VIC" = Some {["A"]}
   ∧ BroadcastService.symbolSubscribers h' !! "VIC" = None)
  ∧ (BroadcastService.clientSubscriptions h !! "A" = Some {["VIC"]}
     ∧ BroadcastService.clientSubscriptions h' !! "A" = Some ∅)
  ∧ (BroadcastService.clientSubscriptions e !! "B" = None
     ∧ BroadcastService.clientSubscriptions e' !! "B" = Some ∅).
Proof. vm_compute. repeat split; reflexivity. Qed.

(** C4, amended.  In every Hub state reached from the empty Hub, for a
    client [c] and symbols [S] none of which [c] is subscribed to,
    [subscribe(c, S)] followed by [unsubscribe(c, S)] returns the symbol
    index to exactly its contents before the subscribe (a symbol whose
    subscriber set becomes empty is removed: the index holds no empty
    set), and every client's subscription set to what it was; in the
    client index the entry of [c] is the set it held before, or the empty
    set when [c] had no entry. *)
Theorem subscribe_unsubscribe_round_trip (ops : list BroadcastService.Op) c ev l :
  (∀ s, s ∈ l → s ∉ BroadcastService.interests (BroadcastService.run ops) c) →
  BroadcastService.symbolSubscribers
    (Spec.subscribeThenUnsubscribe c ev l (BroadcastService.run ops))
  = BroadcastService.symbolSubscribers (BroadcastService.run ops)
  ∧ BroadcastService.clientSubscriptions
      (Spec.subscribeThenUnsubscribe c ev l (BroadcastService.run ops))
    = <[c := BroadcastService.interests (BroadcastService.run ops) c]>
        (BroadcastService.clientSubscriptions (BroadcastService.run ops))
  ∧ (∀ c', BroadcastService.interests
             (Spec.subscribeThenUnsubscribe c ev l (BroadcastService.run ops)) c'
           = BroadcastService.interests (BroadcastService.run ops) c')
  ∧ Spec.noEmptyEntries (Spec.subscribeThenUnsubscribe c ev l (BroadcastService.run ops)).
Proof.
  intros Hfresh.
  destruct (run_preserves ops) as [Hinv Hne].
  set (h := BroadcastService.run ops) in *.
  unfold Spec.subscribeThenUnsubscribe.
  set (h1 := (BroadcastService.handleSubscription c ev (BroadcastService.Symbols l) h).1).
  assert (Spec.mutualInverses h1) as Hinv1 by by apply inverses_handleSubscription.
  assert (Spec.noEmptyEntries h1) as Hne1 by by apply nonempty_handleSubscription.
  assert (Spec.noEmptyEntries
            (BroadcastService.handleUnsubscription c ev (BroadcastService.Symbols l) h1).1)
    as Hne2 by by apply nonempty_handleUnsubscription.
  assert (∀ c',
    BroadcastService.clientSubscriptions
      (BroadcastService.handleUnsubscription c ev (BroadcastService.Symbols l) h1).1 !! c'
    = <[c := BroadcastService.interests h c]> (BroadcastService.clientSubscriptions h) !! c')
    as Hclients.
  { intros c'. rewrite clients_handleUnsubscription. unfold h1.
    rewrite !clients_handleSubscription.
    destruct (decide (c' = c)) as [->|Hc].
    - rewrite decide_True, lookup_insert_eq by done. simpl. f_equal.
      apply set_eq. intros s. rewrite elem_of_difference, elem_of_union, elem_of_list_to_set.
      specialize (Hfresh s). tauto.
    - by rewrite lookup_insert_ne. }
  split; [|split; [|split]].
  - apply nonempty_maps_eq; [done..|]. intros s.
    change (BroadcastService.subscribers
              (BroadcastService.handleUnsubscription c ev (BroadcastService.Symbols l) h1).1 s
            = BroadcastService.subscribers h s).
    rewrite subscribers_handleUnsubscription by done. unfold h1.
    rewrite subscribers_handleSubscription.
    case_decide as Hs; [|done].
    assert (c ∉ BroadcastService.subscribers h s) by (rewrite (Hinv c s); by apply Hfresh).
    set_solver.
  - by apply map_eq.
  - intros c'. unfold BroadcastService.interests at 1. rewrite Hclients.
    destruct (decide (c' = c)) as [->|Hc].
    + by rewrite lookup_insert_eq.
    + by rewrite lookup_insert_ne.
  - done.
Qed.

(** A reachable state and a fresh subscription on which the round trip runs. *)
Lemma subscribe_unsubscribe_round_trip_witness :
  let ops := [BroadcastService.Connection "A" Samples.openSocket;
              BroadcastService.Subscription "A" "match-price"
                (BroadcastService.Symbols ["VIC"]);
              BroadcastService.Subscription "B" "bid-ask"
                (BroadcastService.Symbols ["VHM"])] in
  BroadcastService.symbolSubscribers
    (Spec.subscribeThenUnsubscribe "A" "bid-ask" ["VHM"; "FPT"] (BroadcastService.run ops))
  = BroadcastService.symbolSubscribers (BroadcastService.run ops).
Proof.
  intros ops.
  apply (subscribe_unsubscribe_round_trip ops "A" "bid-ask" ["VHM"; "FPT"]).
  intros s Hs.
  assert (BroadcastService.interests (BroadcastService.run ops) "A" = {["VIC"]}) as ->
    by (vm_compute; reflexivity).
  rewrite elem_of_singleton. intros ->.
  apply elem_of_cons in Hs as [Hs|Hs]; [discriminate|].
  apply elem_of_cons in Hs as [Hs|Hs]; [discriminate|].
  by apply elem_of_nil in Hs.
Defined.

End HubRoundTrip.

(** ** Hub: publishing *)

Section HubPublish.
Context {Data : Type} (JSON_stringify : Data → string).
Implicit Types (h : BroadcastService.Service) (c s ev : string) (data : Data).

Lemma emits_sendTo h ev bytes c :
  Spec.emits (BroadcastService.sendTo h ev bytes c)
  = if Spec.isOpen h c then [(c, ev, bytes)] else [].
Proof.
  unfold BroadcastService.sendTo, Spec.isOpen.
  destruct (BroadcastService.connectedClients h !! c) as [sock|]; [|done].
  destruct (BroadcastService.connected sock); [|done].
  by destruct (BroadcastService.emitThrows sock).
Qed.

Lemma conversions_sendTo h ev bytes c :
  Spec.conversions (BroadcastService.sendTo h ev bytes c) = [].
Proof.
  unfold BroadcastService.sendTo.
  destruct (BroadcastService.connectedClients h !! c) as [sock|]; [|done].
  destruct (BroadcastService.connected sock); [|done].
  by destruct (BroadcastService.emitThrows sock).
Qed.

Lemma emits_app (e1 e2 : list BroadcastService.Effect) :
  Spec.emits (e1 ++ e2) = (Spec.emits e1 ++ Spec.emits e2)%list.
Proof. apply omap_app. Qed.

Lemma conversions_app (e1 e2 : list BroadcastService.Effect) :
  Spec.conversions (e1 ++ e2) = (Spec.conversions e1 ++ Spec.conversions e2)%list.
Proof. apply omap_app. Qed.

Lemma emits_sendTo_all h ev bytes (clients : list string) :
  Spec.emits (flat_map (BroadcastService.sendTo h ev bytes) clients)
  = (λ c, (c, ev, bytes)) <$> filter (λ c, Spec.isOpen h c = true) clients.
Proof.
  induction clients as [|c clients IH]; [done|].
  cbn [flat_map]. rewrite emits_app, emits_sendTo, IH, filter_cons.
  destruct (Spec.isOpen h c) eqn:Hopen.
  - by rewrite decide_True.
  - by rewrite decide_False.
Qed.

Lemma conversions_sendTo_all h ev bytes (clients : list string) :
  Spec.conversions (flat_map (BroadcastService.sendTo h ev bytes) clients) = [].
Proof.
  induction clients as [|c clients IH]; [done|].
  cbn [flat_map]. by rewrite conversions_app, conversions_sendTo, IH.
Qed.

Lemma broadcastUpdate_no_subscribers h s ev data :
  BroadcastService.subscribers h s = ∅ →
  BroadcastService.broadcastUpdate JSON_stringify s ev data h = [].
Proof.
  unfold BroadcastService.subscribers, BroadcastService.broadcastUpdate.
  destruct (BroadcastService.symbolSubscribers h !! s) as [X|]; simpl; [|done].
  intros ->. by rewrite decide_True by apply size_empty.
Qed.

Lemma broadcastUpdate_subscribers h s ev data :
  BroadcastService.subscribers h s ≠ ∅ →
  BroadcastService.broadcastUpdate JSON_stringify s ev data h
  = BroadcastService.ConvertToBinaryData (BroadcastService.convertToBinaryData JSON_stringify data)
    :: flat_map (BroadcastService.sendTo h ev
                   (BroadcastService.convertToBinaryData JSON_stringify data))
                (elements (BroadcastService.subscribers h s)).
Proof.
  unfold BroadcastService.subscribers, BroadcastService.broadcastUpdate.
  destruct (BroadcastService.symbolSubscribers h !! s) as [X|]; simpl; [|done].
  intros HX. rewrite decide_False; [done|].
  intros Hz. apply HX. by apply leibniz_equiv, size_empty_inv.
Qed.

Lemma emits_broadcastUpdate h s ev data :
  Spec.emits (BroadcastService.broadcastUpdate JSON_stringify s ev data h)
  = (λ c, (c, ev, BroadcastService.convertToBinaryData JSON_stringify data))
    <$> filter (λ c, Spec.isOpen h c = true) (elements (BroadcastService.subscribers h s)).
Proof.
  destruct (decide (BroadcastService.subscribers h s = ∅)) as [Hemp|Hne].
  - rewrite broadcastUpdate_no_subscribers, Hemp by done.
    by rewrite elements_empty.
  - rewrite broadcastUpdate_subscribers by done.
    apply emits_sendTo_all.
Qed.

(** C5. With an empty or absent subscriber set, [broadcastUpdate] does
    nothing at all: no call of [convertToBinaryData] and no call of
    [emit].  Otherwise it converts the payload exactly once and calls
    [emit], with the event type it was given and those same bytes, once
    for every subscriber whose socket is known and connected, and for no
    one else; the others are skipped. *)
Theorem publish_serializes_once_and_fans_out h s ev data :
  (BroadcastService.subscribers h s = ∅ →
     BroadcastService.broadcastUpdate JSON_stringify s ev data h = [])
  ∧ (BroadcastService.subscribers h s ≠ ∅ →
       Spec.conversions (BroadcastService.broadcastUpdate JSON_stringify s ev data h)
       = [BroadcastService.convertToBinaryData JSON_stringify data]
       ∧ Spec.emits (BroadcastService.broadcastUpdate JSON_stringify s ev data h)
         = (λ c, (c, ev, BroadcastService.convertToBinaryData JSON_stringify data))
           <$> filter (λ c, Spec.isOpen h c = true)
                      (elements (BroadcastService.subscribers h s))
       ∧ NoDup (Spec.emits (BroadcastService.broadcastUpdate JSON_stringify s ev data h))
       ∧ ∀ c, (c, ev, BroadcastService.convertToBinaryData JSON_stringify data)
                ∈ Spec.emits (BroadcastService.broadcastUpdate JSON_stringify s ev data h)
              ↔ c ∈ BroadcastService.subscribers h s ∧ Spec.isOpen h c = true).
Proof.
  split; [apply broadcastUpdate_no_subscribers|].
  intros Hne. split; [|split; [|split]].
  - rewrite broadcastUpdate_subscribers by done. simpl.
    by rewrite conversions_sendTo_all.
  - apply emits_broadcastUpdate.
  - rewrite emits_broadcastUpdate.
    apply NoDup_fmap_2.
    + by intros c1 c2 [= ->].
    + apply NoDup_filter, NoDup_elements.
  - intros c. rewrite emits_broadcastUpdate, list_elem_of_fmap. split.
    + intros (c' & [= ->] & Hin).
      apply list_elem_of_filter in Hin as [Hopen Hin].
      by apply elem_of_elements in Hin.
    + intros [Hin Hopen]. exists c. split; [done|].
      apply list_elem_of_filter. split; [done|]. by apply elem_of_elements.
Qed.

(** Whoever [broadcastUpdate] emits to is a subscriber of the symbol. *)
Lemma emits_only_to_subscribers h s ev data c ev' bytes :
  (c, ev', bytes) ∈ Spec.emits (BroadcastService.broadcastUpdate JSON_stringify s ev data h) →
  c ∈ BroadcastService.subscribers h s ∧ Spec.isOpen h c = true.
Proof.
  rewrite emits_broadcastUpdate, list_elem_of_fmap.
  intros (c' & [= -> _ _] & Hin).
  apply list_elem_of_filter in Hin as [Hopen Hin].
  by apply elem_of_elements in Hin.
Qed.

(** C6. Once [handleDisconnection] has run for a client, the client is
    in the subscriber set of none of the symbols it was subscribed to, it
    has no entry in the client index and none in the connection map, and
    a publish to any of those symbols emits nothing to it. *)
Theorem disconnect_removes_client h c s :
  s ∈ BroadcastService.interests h c →
  (c ∉ BroadcastService.subscribers (BroadcastService.handleDisconnection c h) s)
  ∧ (BroadcastService.clientSubscriptions (BroadcastService.handleDisconnection c h) !! c
     = None)
  ∧ (BroadcastService.connectedClients (BroadcastService.handleDisconnection c h) !! c
     = None)
  ∧ ∀ ev data ev' bytes,
      (c, ev', bytes) ∉ Spec.emits (BroadcastService.broadcastUpdate JSON_stringify s ev data
                                     (BroadcastService.handleDisconnection c h)).
Proof.
  intros Hs.
  assert (c ∉ BroadcastService.subscribers (BroadcastService.handleDisconnection c h) s)
    as Hgone.
  { rewrite subscribers_handleDisconnection, decide_True by done. set_solver. }
  split; [done|]. split; [|split].
  - by rewrite clients_handleDisconnection, decide_True.
  - unfold BroadcastService.handleDisconnection. simpl. apply lookup_delete_eq.
  - intros ev data ev' bytes Hin.
    by apply emits_only_to_subscribers in Hin as [Hin _].
Qed.

(** C9. [handleSubscription] does not look at the event type it is
    called with: subscribing on one channel gives the same Hub state, and
    the same single subscription set of the client, as subscribing on any
    other; so an update of any event type for a symbol subscribed on any
    channel is emitted to the client (its socket being connected). *)
Theorem subscriptions_channel_agnostic h c ev1 ev2 l s data socket :
  s ∈ l →
  BroadcastService.connectedClients h !! c = Some socket →
  BroadcastService.connected socket = true →
  BroadcastService.handleSubscription c ev1 (BroadcastService.Symbols l) h
  = BroadcastService.handleSubscription c ev2 (BroadcastService.Symbols l) h
  ∧ (BroadcastService.onClientEvent c "match-price" (BroadcastService.Symbols l) h
     = BroadcastService.onClientEvent c "bid-ask" (BroadcastService.Symbols l) h)
  ∧ s ∈ BroadcastService.interests
          (BroadcastService.handleSubscription c ev1 (BroadcastService.Symbols l) h).1 c
  ∧ (c, ev2, BroadcastService.convertToBinaryData JSON_stringify data)
    ∈ Spec.emits (BroadcastService.broadcastUpdate JSON_stringify s ev2 data
                    (BroadcastService.handleSubscription c ev1
                       (BroadcastService.Symbols l) h).1).
Proof.
  intros Hs Hsock Hconn.
  split; [done|]. split; [done|]. split.
  - unfold BroadcastService.interests.
    rewrite clients_handleSubscription, decide_True by done. simpl.
    apply elem_of_union_r. by apply elem_of_list_to_set.
  - rewrite emits_broadcastUpdate, list_elem_of_fmap. exists c. split; [done|].
    apply list_elem_of_filter. split.
    + unfold Spec.isOpen. by rewrite connected_handleSubscription, Hsock.
    + apply elem_of_elements.
      rewrite subscribers_handleSubscription, decide_True by done.
      set_solver.
Qed.

End HubPublish.

(** ** FeedClient and Orchestrator *)

Section Feed.
Context {num : Type} `{!Js.Number num}.
Context (JSON_stringify : RealtimeManager.DecodedMessage num → string).
Context (decode : RealtimeManager.MessageType → string
                  → option (RealtimeManager.DecodedMessage num)).
Implicit Types (message : RealtimeManager.DecodedMessage num) (type data : string).

Section AnyEnvironment.
Context {Env : Type}.
Implicit Types (rm : RealtimeManager.Manager num Env) (w : RealtimeManager.World num Env).

Lemma avgMatchPrice_is_number_or_undefined message :
  (∃ n, Js.get (RealtimeManager.toObject message) "avgMatchPrice" = Js.VNum n)
  ∨ Js.get (RealtimeManager.toObject message) "avgMatchPrice" = Js.VUndefined.
Proof. destruct message; [left; eexists; reflexivity | by right..]. Qed.

(** [updateCache] never raises on a decoded message, leaves the
    callback's environment alone, and writes at most one console line. *)
Lemma updateCache_returns message type w :
  ∃ w1, RealtimeManager.updateCache message type w = RealtimeManager.Returned w1
        ∧ RealtimeManager.env w1 = RealtimeManager.env w
        ∧ ∃ log, RealtimeManager.effects w1 = (RealtimeManager.effects w ++ log)%list
                 ∧ Forall (λ e, Spec.isConsole e = true) log.
Proof.
  unfold RealtimeManager.updateCache.
  destruct (String.eqb type "match-price").
  { destruct (avgMatchPrice_is_number_or_undefined message) as [[n ->]| ->];
      unfold Js.toFixed0_if_truthy; simpl.
    - destruct (Js.truthy n); eexists; (split; [reflexivity|]);
        (split; [done|]); exists []; by rewrite app_nil_r.
    - eexists; split; [reflexivity|]. split; [done|]. exists []. by rewrite app_nil_r. }
  destruct (String.eqb type "bid-ask").
  { eexists; split; [reflexivity|]. split; [done|]. exists []. by rewrite app_nil_r. }
  destruct (String.eqb type "index" && Js.includes (RealtimeManager.symbol message) "VN30").
  - eexists; split; [reflexivity|]. split; [done|]. eexists. split; [reflexivity|].
    by repeat constructor.
  - eexists; split; [reflexivity|]. split; [done|]. exists []. by rewrite app_nil_r.
Qed.

Lemma updateCache_index_elsewhere message w :
  Js.includes (RealtimeManager.symbol message) "VN30" = false →
  RealtimeManager.updateCache message "index" w = RealtimeManager.Returned w.
Proof. intros Hno. unfold RealtimeManager.updateCache. simpl. by rewrite Hno. Qed.

Lemma connectErrors_state n rm w s :
  RealtimeManager.socket rm = Some s →
  RealtimeManager.reconnectAttempts (Spec.connectErrors decode n (rm, w)).1
    = RealtimeManager.reconnectAttempts rm + n
  ∧ RealtimeManager.isConnected (Spec.connectErrors decode n (rm, w)).1
    = RealtimeManager.isConnected rm
  ∧ RealtimeManager.cache (Spec.connectErrors decode n (rm, w)).2 = RealtimeManager.cache w
  ∧ RealtimeManager.env (Spec.connectErrors decode n (rm, w)).2 = RealtimeManager.env w
  ∧ ∃ log, RealtimeManager.effects (Spec.connectErrors decode n (rm, w)).2
           = (RealtimeManager.effects w ++ log)%list
           ∧ Forall (λ e, Spec.isConsole e = true) log.
Proof.
  revert rm w. induction n as [|n IH]; intros rm w Hs; simpl.
  - repeat split; [lia|]. exists []. by rewrite app_nil_r.
  - rewrite Hs.
    match goal with
    | |- context [Spec.connectErrors decode n ?st] =>
        destruct st as [rm' w'] eqn:Hst
    end.
    assert (rm' = RealtimeManager.setConnection (RealtimeManager.isConnected rm)
                    (S (RealtimeManager.reconnectAttempts rm)) rm
            ∧ RealtimeManager.cache w' = RealtimeManager.cache w
            ∧ RealtimeManager.env w' = RealtimeManager.env w
            ∧ ∃ log, RealtimeManager.effects w' = (RealtimeManager.effects w ++ log)%list
                     ∧ Forall (λ e, Spec.isConsole e = true) log)
      as (-> & Hc & He & log & Hlog & Hcons).
    { case_decide; injection Hst as <- <-; (split; [done|]); (split; [done|]);
        (split; [done|]); eexists; (split; [reflexivity|]); by repeat constructor. }
    destruct (IH (RealtimeManager.setConnection (RealtimeManager.isConnected rm)
                    (S (RealtimeManager.reconnectAttempts rm)) rm) w' Hs)
      as (Ha & Hi & Hc' & He' & log' & Hlog' & Hcons').
    rewrite Ha, Hi, Hc', He', Hc, He. simpl.
    repeat split; [lia|].
    exists (log ++ log')%list. rewrite Hlog', Hlog, app_assoc. split; [done|].
    by apply Forall_app.
Qed.

Lemma connectErrors_manager n rm w s :
  RealtimeManager.socket rm = Some s →
  (Spec.connectErrors decode n (rm, w)).1
  = RealtimeManager.setConnection (RealtimeManager.isConnected rm)
      (RealtimeManager.reconnectAttempts rm + n) rm.
Proof.
  revert rm w. induction n as [|n IH]; intros rm w Hs.
  - destruct rm. simpl. unfold RealtimeManager.setConnection. simpl.
    by rewrite Nat.add_0_r.
  - simpl. rewrite Hs.
    case_decide; rewrite IH by done; unfold RealtimeManager.setConnection; simpl;
      f_equal; lia.
Qed.

Lemma execute_keeps_counter (cmd : RealtimeManager.Command num Env) rm w :
  RealtimeManager.reconnectAttempts (RealtimeManager.execute cmd (rm, w)).1
  = RealtimeManager.reconnectAttempts rm.
Proof.
  destruct cmd as [syms cb loads sock|syms| |]; simpl; try done.
  - by destruct loads.
  - by destruct (RealtimeManager.isConnected rm).
Qed.

End AnyEnvironment.
End Feed.

Section Orchestrator.
Context {num : Type} `{!Js.Number num}.
Context (JSON_stringify : RealtimeManager.DecodedMessage num → string).
Context (decode : RealtimeManager.MessageType → string
                  → option (RealtimeManager.DecodedMessage num)).
Implicit Types (message : RealtimeManager.DecodedMessage num) (type data : string).
Implicit Types (rm : RealtimeManager.Manager num Server.Outside).
Implicit Types (w : RealtimeManager.World num Server.Outside).


(** C10. An event of type ['index'] whose symbol does not contain
    ["VN30"] goes through [updateCache] without any change: the whole
    cache, stock data and market indexes alike, is as before, and
    nothing is logged.  The event is still handed to the callback, which
    broadcasts it. *)
Theorem index_outside_vn30_leaves_cache message data rm w messageType :
  Js.includes (RealtimeManager.symbol message) "VN30" = false →
  RealtimeManager.messageTypes rm !! "index" = Some messageType →
  decode messageType data = Some message →
  RealtimeManager.symbol message ≠ "" →
  RealtimeManager.onUpdateCallback rm = Some (Server.onUpdate JSON_stringify) →
  RealtimeManager.updateCache message "index" w = RealtimeManager.Returned w
  ∧ RealtimeManager.cache (RealtimeManager.handleMessage decode "index" data rm w)
    = RealtimeManager.cache w
  ∧ RealtimeManager.effects (RealtimeManager.handleMessage decode "index" data rm w)
    = RealtimeManager.effects w
  ∧ Server.sent (RealtimeManager.env (RealtimeManager.handleMessage decode "index" data rm w))
    = (Server.sent (RealtimeManager.env w)
       ++ BroadcastService.broadcastUpdate JSON_stringify
            (RealtimeManager.symbol message) "index" message
            (Server.broadcastService (RealtimeManager.env w)))%list.
Proof.
  intros Hno Htype Hdec Hsym Hcb.
  split; [by apply updateCache_index_elsewhere|].
  unfold RealtimeManager.handleMessage.
  rewrite Htype, Hdec.
  apply String.eqb_neq in Hsym. rewrite Hsym.
  by rewrite updateCache_index_elsewhere, Hcb.
Qed.

Lemma connectErrors_last n (st : RealtimeManager.Manager num Server.Outside
                                 * RealtimeManager.World num Server.Outside) :
  Spec.connectErrors decode (S n) st
  = RealtimeManager.on decode (RealtimeManager.ConnectError "timeout")
      (Spec.connectErrors decode n st).
Proof. revert st. induction n as [|n IH]; intros st; [done|]. simpl in *. by rewrite IH. Qed.


End Orchestrator.

(** ** The properties at work on concrete inputs *)

Section Instances.

Lemma bulk_load_replaces_witness :
  Samples.hosePayload !! "VIC" = Some Samples.newRecord
  ∧ CacheManager.field Samples.cacheWithVIC "VIC" "khopLenhGia" = Some 95%Z
  ∧ CacheManager.field
      (CacheManager.setMultipleStockData Samples.hosePayload Samples.cacheWithVIC)
      "VIC" "khopLenhGia" = None.
Proof.
  split; [vm_compute; reflexivity|]. split; [vm_compute; reflexivity|].
  destruct (bulk_load_replaces Samples.hosePayload Samples.cacheWithVIC "VIC"
              Samples.newRecord) as [_ Hgone]; [vm_compute; reflexivity|].
  apply (Hgone Samples.oldRecord "khopLenhGia" 95%Z); vm_compute; reflexivity.
Defined.

Lemma disconnect_removes_client_witness :
  "VIC" ∈ BroadcastService.interests Samples.hubWithA "A"
  ∧ "A" ∉ BroadcastService.subscribers
            (BroadcastService.handleDisconnection "A" Samples.hubWithA) "VIC".
Proof.
  assert ("VIC" ∈ BroadcastService.interests Samples.hubWithA "A") as Hin
    by (vm_compute; reflexivity).
  split; [exact Hin|].
  apply (disconnect_removes_client Samples.stringify Samples.hubWithA "A" "VIC" Hin).
Defined.

Lemma subscriptions_channel_agnostic_witness :
  ("A", "bid-ask", "{VIC}")
  ∈ Spec.emits
      (BroadcastService.broadcastUpdate Samples.stringify "VIC" "bid-ask"
         (RealtimeManager.OfBidAsk
            {| RealtimeManager.ba_symbol := "VIC";
               RealtimeManager.ba_bidPrices := [];
               RealtimeManager.ba_askPrices := [] |})
         (BroadcastService.handleSubscription "A" "match-price"
            (BroadcastService.Symbols ["VIC"])
            (BroadcastService.run [BroadcastService.Connection "A" Samples.openSocket])).1).
Proof.
  destruct (subscriptions_channel_agnostic Samples.stringify
              (BroadcastService.run [BroadcastService.Connection "A" Samples.openSocket])
              "A" "match-price" "bid-ask" ["VIC"] "VIC"
              (RealtimeManager.OfBidAsk
                 {| RealtimeManager.ba_symbol := "VIC";
                    RealtimeManager.ba_bidPrices := [];
                    RealtimeManager.ba_askPrices := [] |})
              Samples.openSocket) as (_ & _ & _ & Hemit).
  - apply list_elem_of_here.
  - vm_compute; reflexivity.
  - reflexivity.
  - exact Hemit.
Defined.


Lemma index_outside_vn30_leaves_cache_witness :
  RealtimeManager.cache
    (RealtimeManager.handleMessage Samples.decode "index" "VNINDEX"
       Samples.started.1 Samples.started.2)
  = RealtimeManager.cache Samples.started.2.
Proof.
  apply (index_outside_vn30_leaves_cache Samples.stringify Samples.decode
           (RealtimeManager.OfIndex (Samples.indexOf "VNINDEX")) "VNINDEX"
           Samples.started.1 Samples.started.2 RealtimeManager.IndexMessage).
  - reflexivity.
  - vm_compute; reflexivity.
  - reflexivity.
  - discriminate.
  - reflexivity.
Defined.



End Instances.

(** ** The model run on examples *)

Section Examples.

Example includes_VN30 :
  Js.includes "VN30" "VN30" = true
  ∧ Js.includes "VN30F2412" "VN30" = true
  ∧ Js.includes "VNINDEX" "VN30" = false
  ∧ Js.includes "HNX30" "VN30" = false
  ∧ Js.includes "HNXIndex" "VN30" = false
  ∧ Js.includes "HNXUpcomIndex" "VN30" = false.
Proof. repeat split; reflexivity. Qed.

(** Step 3 of [startServer] asks for one connection, with the options
    of the constructor. *)
Example startRealtime_connects_once :
  RealtimeManager.effects Samples.started.2
  = [RealtimeManager.IoConnect
       {| RealtimeManager.serverUrl := "https://trading.vietcap.com.vn";
          RealtimeManager.socketPath := "/ws/price/socket.io";
          RealtimeManager.reconnectionAttempts := 5;
          RealtimeManager.reconnectionDelay := 1000 |} true].
Proof. reflexivity. Qed.

(** A trade match for ["VIC"]: the cache is updated, then ["A"], its
    only subscriber, is sent the serialized event. *)
Example match_price_event :
  let w := RealtimeManager.handleMessage Samples.decode "match-price" "VIC"
             Samples.started.1 Samples.started.2 in
  CacheManager.field (RealtimeManager.cache w) "VIC" "khopLenhGia" = Some (Js.VNum 105%Z)
  ∧ CacheManager.field (RealtimeManager.cache w) "VIC" "khopLenhChange" = Some (Js.VNum 5%Z)
  ∧ CacheManager.field (RealtimeManager.cache w) "VIC" "tb" = Some (Js.VNum 104%Z)
  ∧ Server.sent (RealtimeManager.env w)
    = [BroadcastService.ConvertToBinaryData "{VIC}";
       BroadcastService.Emit "A" "match-price" "{VIC}"].
Proof. vm_compute. repeat split; reflexivity. Qed.

(** The same event for a symbol nobody subscribed to: cache updated,
    nothing converted, nothing sent. *)
Example match_price_event_without_subscribers :
  let w := RealtimeManager.handleMessage Samples.decode "match-price" "VHM"
             Samples.started.1 Samples.started.2 in
  CacheManager.field (RealtimeManager.cache w) "VHM" "khopLenhGia" = Some (Js.VNum 105%Z)
  ∧ Server.sent (RealtimeManager.env w) = [].
Proof. vm_compute. repeat split; reflexivity. Qed.

(** A payload that does not decode: one console line, nothing else. *)
Example undecodable_message :
  RealtimeManager.handleMessage Samples.decode "bid-ask" "!garbage"
    Samples.started.1 Samples.started.2
  = RealtimeManager.perform
      [RealtimeManager.ConsoleError "[SOCKET-MSG] Error processing bid-ask message"]
      Samples.started.2.
Proof. reflexivity. Qed.

(** A partial update keeps the fields it does not mention; a bulk load
    of the same record drops them. *)
Example merge_against_replace :
  CacheManager.field
    (CacheManager.updateStockData "VIC" Samples.newRecord Samples.cacheWithVIC)
    "VIC" "khopLenhGia" = Some 95%Z
  ∧ CacheManager.field
      (CacheManager.updateStockData "VIC" Samples.newRecord Samples.cacheWithVIC)
      "VIC" "ref" = Some 100%Z
  ∧ CacheManager.field
      (CacheManager.setMultipleStockData Samples.hosePayload Samples.cacheWithVIC)
      "VIC" "khopLenhGia" = None.
Proof. vm_compute. repeat split; reflexivity. Qed.

(** Five failures in a row: the fifth one logs that the maximum is reached. *)
Example fifth_failure_is_logged :
  last (RealtimeManager.effects Samples.exhausted.2)
  = Some (RealtimeManager.ConsoleError "[REALTIME] Max reconnection attempts reached")
  ∧ RealtimeManager.isConnected Samples.exhausted.1 = false.
Proof. split; reflexivity. Qed.

End Examples.

(** * Further properties of the code *)

(** ** cache-manager.js: reads, counters, composition *)

Section CacheReads.
Context {val : Type}.
Implicit Types (c : CacheManager.Cache val) (s group : string) (syms : list string).

Lemma collect_lookup (source acc : gmap string (gmap string val)) syms s :
  foldl (λ result symbol,
           match source !! symbol with
           | Some data => <[symbol := data]> result
           | None => result
           end) acc syms !! s
  = if decide (s ∈ syms)
    then match source !! s with Some data => Some data | None => acc !! s end
    else acc !! s.
Proof.
  revert acc. induction syms as [|x syms IH]; intros acc; cbn [foldl].
  - case_decide as Hin; [by apply elem_of_nil in Hin|done].
  - rewrite IH.
    destruct (decide (s = x)) as [->|Hne].
    + rewrite (decide_True (P := x ∈ x :: syms)) by apply list_elem_of_here.
      destruct (source !! x) as [data|] eqn:Hx.
      * rewrite lookup_insert_eq. by case_decide.
      * by case_decide.
    + assert (acc' : ∀ acc0 : gmap string (gmap string val),
                match source !! x with
                | Some data => <[x := data]> acc0
                | None => acc0
                end !! s = acc0 !! s).
      { intros acc0. destruct (source !! x); [by rewrite lookup_insert_ne|done]. }
      rewrite acc'.
      destruct (decide (s ∈ syms)) as [Hin|Hin].
      * by rewrite decide_True by (by apply list_elem_of_further).
      * rewrite decide_False; [done|].
        intros [?|?]%elem_of_cons; done.
Qed.

Lemma getStockDataBySymbols_lookup_aux syms c s :
  CacheManager.getStockDataBySymbols syms c !! s
  = if decide (s ∈ syms) then CacheManager.stockData c !! s else None.
Proof.
  unfold CacheManager.getStockDataBySymbols. rewrite collect_lookup, lookup_empty.
  case_decide; [|done]. by destruct (CacheManager.stockData c !! s).
Qed.



End CacheReads.

Section CacheCounters.
Context {val : Type}.
Implicit Types (c : CacheManager.Cache val) (s : string).

Lemma counters_setStockData_all (l : list (string * gmap string val)) c :
  CacheManager.counters (CacheManager.getStats c)
    = CacheManager.memoryUsage (CacheManager.getStats c) →
  CacheManager.counters
    (CacheManager.getStats
       (foldl (λ c' entry, CacheManager.setStockData entry.1 entry.2 c') c l))
  = CacheManager.memoryUsage
      (CacheManager.getStats
         (foldl (λ c' entry, CacheManager.setStockData entry.1 entry.2 c') c l)).
Proof.
  revert c. induction l as [|e l IH]; intros c Hc; simpl; [done|].
  apply IH. destruct c as [sy sd gr mi co ini [n1 n2 n3 n4 n5]].
  simpl in *. by injection Hc as -> _ -> -> ->.
Qed.

Lemma counters_setMarketIndex_all (l : list (string * gmap string val)) c :
  CacheManager.counters (CacheManager.getStats c)
    = CacheManager.memoryUsage (CacheManager.getStats c) →
  CacheManager.counters
    (CacheManager.getStats
       (foldl (λ c' entry, CacheManager.setMarketIndex entry.1 entry.2 c') c l))
  = CacheManager.memoryUsage
      (CacheManager.getStats
         (foldl (λ c' entry, CacheManager.setMarketIndex entry.1 entry.2 c') c l)).
Proof.
  revert c. induction l as [|e l IH]; intros c Hc; simpl; [done|].
  apply IH. destruct c as [sy sd gr mi co ini [n1 n2 n3 n4 n5]].
  simpl in *. by injection Hc as -> -> -> _ ->.
Qed.

Lemma counters_write c (op : CacheManager.Write val) :
  CacheManager.counters (CacheManager.getStats c)
    = CacheManager.memoryUsage (CacheManager.getStats c) →
  CacheManager.counters (CacheManager.getStats (CacheManager.write c op))
  = CacheManager.memoryUsage (CacheManager.getStats (CacheManager.write c op)).
Proof.
  intros Hc.
  destruct op;
    [| |by apply counters_setStockData_all| | |by apply counters_setMarketIndex_all| | |];
    destruct c as [sy sd gr mi co ini [n1 n2 n3 n4 n5]]; simpl in *;
    injection Hc as -> -> -> -> ->; by rewrite ?map_size_empty.
Qed.

(** X3. After any sequence of cache writes (bulk and partial stock
    updates, group lists, market indexes, companies, [initialize],
    [clear]) on a fresh cache, every counter [getStats] reports equals
    the size of the structure it counts. *)
Theorem counters_match_sizes (ops : list (CacheManager.Write val)) :
  CacheManager.counters (CacheManager.getStats (CacheManager.writes ops))
  = CacheManager.memoryUsage (CacheManager.getStats (CacheManager.writes ops)).
Proof.
  unfold CacheManager.writes.
  induction ops as [|op ops IH] using rev_ind.
  - simpl. by rewrite !map_size_empty.
  - rewrite foldl_app. simpl. by apply counters_write.
Qed.

(** X4. Partial updates compose: two in a row amount to one with the
    later update laid over the earlier one, and a partial update after a
    full replacement amounts to replacing with the merged record.  The
    whole cache, counters included, is the same. *)
Theorem partial_updates_compose s (u1 u2 data : gmap string val) c :
  CacheManager.updateStockData s u2 (CacheManager.updateStockData s u1 c)
    = CacheManager.updateStockData s (u2 ∪ u1) c
  ∧ CacheManager.updateStockData s u2 (CacheManager.setStockData s data c)
    = CacheManager.setStockData s (u2 ∪ data) c.
Proof.
  unfold CacheManager.updateStockData, CacheManager.setStockData, Js.spread2. simpl.
  rewrite !lookup_insert_eq, !insert_insert_eq. simpl.
  by rewrite (assoc_L (∪)).
Qed.

End CacheCounters.

(** ** broadcast-service.js: repetition, isolation, selectivity, statistics *)

Section HubMore.
Context {Data : Type} (JSON_stringify : Data → string).
Implicit Types (h : BroadcastService.Service) (c s ev : string) (l : list string).

Lemma symbolSubscribers_subscribeSymbol c h s s' :
  BroadcastService.symbolSubscribers (BroadcastService.subscribeSymbol c h s) !! s'
  = if decide (s' = s)
    then Some (BroadcastService.subscribers h s ∪ {[c]})
    else BroadcastService.symbolSubscribers h !! s'.
Proof.
  unfold BroadcastService.subscribers, BroadcastService.subscribeSymbol. simpl.
  destruct (BroadcastService.symbolSubscribers h !! s) as [X|] eqn:HX;
    case_decide as Hs; subst.
  - by rewrite lookup_alter_eq, HX.
  - by rewrite lookup_alter_ne.
  - by rewrite lookup_alter_eq, lookup_insert_eq.
  - by rewrite lookup_alter_ne, lookup_insert_ne.
Qed.

Lemma symbolSubscribers_subscribe_all c l h s' :
  BroadcastService.symbolSubscribers (foldl (BroadcastService.subscribeSymbol c) h l) !! s'
  = if decide (s' ∈ l)
    then Some (BroadcastService.subscribers h s' ∪ {[c]})
    else BroadcastService.symbolSubscribers h !! s'.
Proof.
  revert h. induction l as [|s l IH]; intros h; cbn [foldl].
  - case_decide as Hin; [by apply elem_of_nil in Hin|done].
  - rewrite IH, subscribers_subscribeSymbol, symbolSubscribers_subscribeSymbol.
    destruct (decide (s' ∈ l)) as [Hin|Hin], (decide (s' = s)) as [->|Hne].
    + rewrite decide_True by apply list_elem_of_here. f_equal. set_solver.
    + by rewrite decide_True by (by apply list_elem_of_further).
    + by rewrite decide_True by apply list_elem_of_here.
    + by rewrite decide_False by (intros [?|?]%elem_of_cons; done).
Qed.

Lemma service_eq h1 h2 :
  BroadcastService.clientSubscriptions h1 = BroadcastService.clientSubscriptions h2 →
  BroadcastService.symbolSubscribers h1 = BroadcastService.symbolSubscribers h2 →
  BroadcastService.connectedClients h1 = BroadcastService.connectedClients h2 →
  h1 = h2.
Proof. destruct h1, h2. simpl. by intros -> -> ->. Qed.

(** X5. Subscribing again to symbols the client has just subscribed to
    (any subset, any order, any channel) changes nothing in the Hub. *)
Theorem resubscribe_is_noop h c ev ev' l l' :
  (∀ s, s ∈ l' → s ∈ l) →
  (BroadcastService.handleSubscription c ev' (BroadcastService.Symbols l')
     (BroadcastService.handleSubscription c ev (BroadcastService.Symbols l) h).1).1
  = (BroadcastService.handleSubscription c ev (BroadcastService.Symbols l) h).1.
Proof.
  intros Hsub.
  set (h1 := (BroadcastService.handleSubscription c ev (BroadcastService.Symbols l) h).1).
  apply service_eq.
  - apply map_eq. intros c'. rewrite clients_handleSubscription.
    case_decide; subst; [|done].
    unfold BroadcastService.interests at 1. unfold h1.
    rewrite clients_handleSubscription, decide_True by done. simpl. f_equal.
    apply set_eq. intros s. rewrite !elem_of_union, !elem_of_list_to_set.
    specialize (Hsub s). tauto.
  - assert (is_Some (BroadcastService.clientSubscriptions h1 !! c)) as [X HX].
    { unfold h1. rewrite clients_handleSubscription, decide_True by done. eauto. }
    unfold BroadcastService.handleSubscription at 1. simpl. rewrite HX.
    apply map_eq. intros s'. rewrite symbolSubscribers_subscribe_all.
    case_decide as Hin; [|done].
    unfold BroadcastService.subscribers, h1, BroadcastService.handleSubscription. simpl.
    rewrite symbolSubscribers_subscribe_all, decide_True by (by apply Hsub). simpl.
    f_equal. set_solver.
  - by rewrite connected_handleSubscription.
Qed.

(** X6. Unsubscribing or disconnecting one client changes nothing for
    any other client: the other's subscription set, its membership in
    every subscriber set and its socket are as before. *)
Theorem other_clients_untouched h c c' ev l :
  c' ≠ c →
  (BroadcastService.interests
     (BroadcastService.handleUnsubscription c ev (BroadcastService.Symbols l) h).1 c'
   = BroadcastService.interests h c'
   ∧ (∀ s, c' ∈ BroadcastService.subscribers
                  (BroadcastService.handleUnsubscription c ev
                     (BroadcastService.Symbols l) h).1 s
           ↔ c' ∈ BroadcastService.subscribers h s))
  ∧ (BroadcastService.interests (BroadcastService.handleDisconnection c h) c'
     = BroadcastService.interests h c'
     ∧ (∀ s, c' ∈ BroadcastService.subscribers (BroadcastService.handleDisconnection c h) s
             ↔ c' ∈ BroadcastService.subscribers h s)
     ∧ BroadcastService.connectedClients (BroadcastService.handleDisconnection c h) !! c'
       = BroadcastService.connectedClients h !! c').
Proof.
  intros Hne. split; [split|split; [|split]].
  - unfold BroadcastService.interests.
    by rewrite clients_handleUnsubscription, decide_False.
  - intros s. unfold BroadcastService.handleUnsubscription.
    destruct (BroadcastService.clientSubscriptions h !! c); simpl; [|done].
    rewrite subscribers_unsubscribe_all. case_decide; set_solver.
  - unfold BroadcastService.interests.
    by rewrite clients_handleDisconnection, decide_False.
  - intros s. rewrite subscribers_handleDisconnection. case_decide; set_solver.
  - unfold BroadcastService.handleDisconnection. simpl.
    rewrite lookup_delete_ne by done.
    by destruct (BroadcastService.clientSubscriptions h !! c).
Qed.

(** X7. In every Hub state reached from the empty Hub, once a client
    has unsubscribed from some symbols a publish to any of them emits
    nothing to it, while the symbols it did not name stay in its
    subscription set exactly as they were. *)
Theorem unsubscribe_stops_delivery (ops : list BroadcastService.Op) c ev l :
  (∀ s ev' data ev'' bytes,
     s ∈ l →
     (c, ev'', bytes)
     ∉ Spec.emits (BroadcastService.broadcastUpdate JSON_stringify s ev' data
                     (BroadcastService.handleUnsubscription c ev (BroadcastService.Symbols l)
                        (BroadcastService.run ops)).1))
  ∧ (∀ s, s ∉ l →
          s ∈ BroadcastService.interests
                (BroadcastService.handleUnsubscription c ev (BroadcastService.Symbols l)
                   (BroadcastService.run ops)).1 c
          ↔ s ∈ BroadcastService.interests (BroadcastService.run ops) c).
Proof.
  destruct (run_preserves ops) as [Hinv _].
  split.
  - intros s ev' data ev'' bytes Hs Hin.
    apply emits_only_to_subscribers in Hin as [Hin _].
    rewrite subscribers_handleUnsubscription, decide_True in Hin by done.
    set_solver.
  - intros s Hs. unfold BroadcastService.interests.
    rewrite clients_handleUnsubscription, decide_True by done.
    destruct (BroadcastService.clientSubscriptions (BroadcastService.run ops) !! c);
      simpl; [|done].
    rewrite elem_of_difference, elem_of_list_to_set. tauto.
Qed.

(** X8. In every Hub state reached from the empty Hub, a publish for a
    symbol is emitted only to clients that hold that symbol in their
    subscription set and whose socket is connected: a client subscribed
    to other symbols only receives nothing. *)
Theorem publish_reaches_only_subscribed (ops : list BroadcastService.Op) s ev data c ev' bytes :
  (c, ev', bytes)
  ∈ Spec.emits (BroadcastService.broadcastUpdate JSON_stringify s ev data
                  (BroadcastService.run ops)) →
  s ∈ BroadcastService.interests (BroadcastService.run ops) c
  ∧ Spec.isOpen (BroadcastService.run ops) c = true
  ∧ ev' = ev
  ∧ bytes = BroadcastService.convertToBinaryData JSON_stringify data.
Proof.
  intros Hin. destruct (run_preserves ops) as [Hinv _].
  rewrite emits_broadcastUpdate, list_elem_of_fmap in Hin.
  destruct Hin as (c0 & [= -> -> ->] & Hin).
  apply list_elem_of_filter in Hin as [Hopen Hin].
  apply elem_of_elements in Hin.
  split; [by apply Hinv|done].
Qed.

Lemma total_at_least_count (sets : list (gset string)) (start : nat) :
  Forall (λ X, X ≠ ∅) sets →
  (start + length sets ≤ foldl (λ total subscribers, total + size subscribers) start sets)%nat.
Proof.
  revert start. induction sets as [|X sets IH]; intros start Hne; simpl; [lia|].
  apply Forall_cons in Hne as [HX Hne].
  specialize (IH (start + size X) Hne).
  assert (size X ≠ 0) by (intros Hz; by apply HX, leibniz_equiv, size_empty_inv).
  lia.
Qed.

(** X9. In every Hub state reached from the empty Hub, the statistics
    never count a symbol without subscribers: the number of tracked
    symbols is at most the total number of symbol subscriptions. *)
Theorem stats_track_only_subscribed_symbols (ops : list BroadcastService.Op) :
  (BroadcastService.symbolsTracked (BroadcastService.getStats (BroadcastService.run ops))
   ≤ BroadcastService.totalSymbolSubscriptions
       (BroadcastService.getStats (BroadcastService.run ops)))%nat.
Proof.
  destruct (run_preserves ops) as [_ Hne]. simpl.
  set (ss := BroadcastService.symbolSubscribers (BroadcastService.run ops)) in *.
  pose proof (total_at_least_count (map_to_list ss).*2 0) as Hle.
  rewrite length_fmap, length_map_to_list in Hle. simpl in Hle.
  apply Hle. apply Forall_forall. intros X HX.
  apply list_elem_of_fmap in HX as ([s X'] & -> & HX).
  apply elem_of_map_to_list in HX. by eapply Hne.
Qed.

End HubMore.

(** ** realtime-manager.js: what an event writes *)

Section ObjectLiterals.
Context {V : Type}.

Lemma dom_insert_all (props : list (string * V)) (o : gmap string V) :
  dom (foldl (λ o kv, <[kv.1 := kv.2]> o) o props) = list_to_set props.*1 ∪ dom o.
Proof.
  revert o. induction props as [|[k v] props IH]; intros o; simpl.
  - by rewrite (left_id_L ∅ (∪)).
  - rewrite IH, dom_insert_L. set_solver.
Qed.

Lemma dom_literal (props : list (string * V)) :
  dom (Js.literal props) = list_to_set props.*1.
Proof.
  unfold Js.literal. rewrite dom_insert_all, dom_empty_L. set_solver.
Qed.

Lemma literal_lookup_None (props : list (string * V)) (f : string) :
  f ∉ props.*1 → Js.literal props !! f = None.
Proof.
  intros Hf. apply not_elem_of_dom. rewrite dom_literal.
  by rewrite elem_of_list_to_set.
Qed.

Lemma field_updateStockData_other (symbol s f : string) (update : gmap string V)
    (c : CacheManager.Cache V) :
  s ≠ symbol →
  CacheManager.field (CacheManager.updateStockData symbol update c) s f
  = CacheManager.field c s f.
Proof.
  intros Hs. unfold CacheManager.field, CacheManager.updateStockData.
  by rewrite stockData_setStockData, lookup_insert_ne.
Qed.

Lemma field_updateStockData_unmentioned (symbol s f : string) (update : gmap string V)
    (c : CacheManager.Cache V) :
  update !! f = None →
  CacheManager.field (CacheManager.updateStockData symbol update c) s f
  = CacheManager.field c s f.
Proof.
  intros Hf. destruct (decide (s = symbol)) as [->|Hs].
  - by rewrite field_updateStockData, Hf.
  - by apply field_updateStockData_other.
Qed.

End ObjectLiterals.

Section EventWrites.
Context {num : Type} `{!Js.Number num} {Env : Type}.
Implicit Types (message : RealtimeManager.DecodedMessage num) (type s f : string).
Implicit Types (w : RealtimeManager.World num Env).

(** How [updateCache] changes the world, branch by branch. *)
Lemma updateCache_cases message type w w1 :
  RealtimeManager.updateCache message type w = RealtimeManager.Returned w1 →
  (type = "match-price"
   ∧ ∃ update, dom update = list_to_set Spec.tradeFields
       ∧ RealtimeManager.cache w1
         = CacheManager.updateStockData (RealtimeManager.symbol message) update
             (RealtimeManager.cache w))
  ∨ (type = "bid-ask"
     ∧ ∃ update, dom update = list_to_set Spec.orderBookFields
         ∧ RealtimeManager.cache w1
           = CacheManager.updateStockData (RealtimeManager.symbol message) update
               (RealtimeManager.cache w))
  ∨ (type = "index"
     ∧ Js.includes (RealtimeManager.symbol message) "VN30" = true
     ∧ ∃ indexData, dom indexData = list_to_set Spec.indexFields
         ∧ RealtimeManager.cache w1
           = CacheManager.setMarketIndex (RealtimeManager.symbol message) indexData
               (RealtimeManager.cache w))
  ∨ RealtimeManager.cache w1 = RealtimeManager.cache w.
Proof.
  unfold RealtimeManager.updateCache.
  destruct (String.eqb type "match-price") eqn:Hmp.
  { apply String.eqb_eq in Hmp.
    destruct (Js.toFixed0_if_truthy _) as [tb|]; [|done].
    intros [= <-]. left. split; [done|]. eexists. split; [|reflexivity].
    by rewrite dom_literal. }
  destruct (String.eqb type "bid-ask") eqn:Hba.
  { apply String.eqb_eq in Hba.
    intros [= <-]. right. left. split; [done|]. eexists. split; [|reflexivity].
    by rewrite dom_literal. }
  destruct (String.eqb type "index") eqn:Hix; simpl.
  - apply String.eqb_eq in Hix.
    destruct (Js.includes (RealtimeManager.symbol message) "VN30") eqn:Hvn.
    + intros [= <-]. right. right. left. split; [done|]. split; [done|].
      eexists. split; [|reflexivity]. by rewrite dom_literal.
    + intros [= <-]. by right; right; right.
  - intros [= <-]. by right; right; right.
Qed.

(** X10. A trade-match event never changes an order-book field of any
    record, and an order-book event never changes a trade field: the two
    kinds of event write disjoint parts of a stock record. *)
Theorem trade_and_order_book_writes_disjoint message type f s w w1 :
  (type = "match-price" ∧ f ∈ Spec.orderBookFields)
  ∨ (type = "bid-ask" ∧ f ∈ Spec.tradeFields) →
  RealtimeManager.updateCache message type w = RealtimeManager.Returned w1 →
  CacheManager.field (RealtimeManager.cache w1) s f
  = CacheManager.field (RealtimeManager.cache w) s f.
Proof.
  intros Hf Hw1.
  assert (Forall (λ k, k ∉ Spec.tradeFields) Spec.orderBookFields) as Hdisj1
    by (apply (bool_decide_unpack _); by vm_compute).
  assert (Forall (λ k, k ∉ Spec.orderBookFields) Spec.tradeFields) as Hdisj2
    by (apply (bool_decide_unpack _); by vm_compute).
  rewrite Forall_forall in Hdisj1. rewrite Forall_forall in Hdisj2.
  destruct (updateCache_cases message type w w1 Hw1)
    as [(-> & update & Hdom & ->)|[(-> & update & Hdom & ->)|[(-> & _)| ->]]].
  - destruct Hf as [[_ Hf]|[[=] _]].
    apply field_updateStockData_unmentioned, not_elem_of_dom.
    rewrite Hdom, elem_of_list_to_set. by apply Hdisj1.
  - destruct Hf as [[[=] _]|[_ Hf]].
    apply field_updateStockData_unmentioned, not_elem_of_dom.
    rewrite Hdom, elem_of_list_to_set. by apply Hdisj2.
  - by destruct Hf as [[[=] _]|[[=] _]].
  - done.
Qed.

(** X11. An event touches the cached state of its own symbol only, and
    only one of the two stores: the stock record and the index record of
    every other symbol are as before, either the stock data or the
    market indexes are untouched as a whole, and the symbol metadata,
    the group lists and the companies never change. *)
Theorem event_touches_own_symbol_only message type w w1 :
  RealtimeManager.updateCache message type w = RealtimeManager.Returned w1 →
  (∀ s, s ≠ RealtimeManager.symbol message →
        CacheManager.stockData (RealtimeManager.cache w1) !! s
          = CacheManager.stockData (RealtimeManager.cache w) !! s
        ∧ CacheManager.marketIndexes (RealtimeManager.cache w1) !! s
          = CacheManager.marketIndexes (RealtimeManager.cache w) !! s)
  ∧ (CacheManager.stockData (RealtimeManager.cache w1)
       = CacheManager.stockData (RealtimeManager.cache w)
     ∨ CacheManager.marketIndexes (RealtimeManager.cache w1)
       = CacheManager.marketIndexes (RealtimeManager.cache w))
  ∧ CacheManager.symbols (RealtimeManager.cache w1)
    = CacheManager.symbols (RealtimeManager.cache w)
  ∧ CacheManager.symbolsByGroup (RealtimeManager.cache w1)
    = CacheManager.symbolsByGroup (RealtimeManager.cache w)
  ∧ CacheManager.companies (RealtimeManager.cache w1)
    = CacheManager.companies (RealtimeManager.cache w).
Proof.
  intros Hw1.
  destruct (updateCache_cases message type w w1 Hw1)
    as [(_ & update & _ & ->)|[(_ & update & _ & ->)|[(_ & _ & indexData & _ & ->)| ->]]];
    simpl; (split; [intros s Hs; by rewrite ?lookup_insert_ne|]); auto.
Qed.

(** X12. A realtime index event for a symbol containing ["VN30"]
    replaces the cached index record of that symbol: the new record has
    exactly the seventeen fields the handler builds, tagged as an index
    message, with [sendingTime] equal to [time]; any other field the old
    record had (from the bulk load) is gone.  Stock data is not touched. *)
Theorem index_event_replaces_record message w w1 :
  Js.includes (RealtimeManager.symbol message) "VN30" = true →
  RealtimeManager.updateCache message "index" w = RealtimeManager.Returned w1 →
  CacheManager.stockData (RealtimeManager.cache w1)
    = CacheManager.stockData (RealtimeManager.cache w)
  ∧ ∃ indexData,
      CacheManager.marketIndexes (RealtimeManager.cache w1) !! RealtimeManager.symbol message
        = Some indexData
      ∧ dom indexData = list_to_set Spec.indexFields
      ∧ indexData !! "messageType" = Some (Js.VStr "index")
      ∧ indexData !! "symbol" = Some (Js.VStr (RealtimeManager.symbol message))
      ∧ indexData !! "sendingTime" = indexData !! "time".
Proof.
  intros Hvn. unfold RealtimeManager.updateCache. simpl. rewrite Hvn.
  intros [= <-]. simpl. split; [done|].
  eexists. split; [apply lookup_insert_eq|].
  split; [by rewrite dom_literal|].
  repeat split; reflexivity.
Qed.

Lemma priceAt_beyond (levels : list (RealtimeManager.PriceLevel num)) i :
  (length levels ≤ i)%nat →
  RealtimeManager.priceAt levels i = Js.VNum (Js.of_Z 0)
  ∧ RealtimeManager.volumeAt levels i = Js.VNum (Js.of_Z 0).
Proof.
  intros Hi. unfold RealtimeManager.priceAt, RealtimeManager.volumeAt.
  by rewrite lookup_ge_None_2.
Qed.

Lemma orderBook_literal (p1 v1 p2 v2 p3 v3 q1 u1 q2 u2 q3 u3 : Js.val num) :
  Js.literal
    [("duMuaGia1", p1); ("duMuaKL1", v1); ("duMuaGia2", p2); ("duMuaKL2", v2);
     ("duMuaGia3", p3); ("duMuaKL3", v3); ("duBanGia1", q1); ("duBanKL1", u1);
     ("duBanGia2", q2); ("duBanKL2", u2); ("duBanGia3", q3); ("duBanKL3", u3)]
  = <["duBanKL3" := u3]> (<["duBanGia3" := q3]> (<["duBanKL2" := u2]>
      (<["duBanGia2" := q2]> (<["duBanKL1" := u1]> (<["duBanGia1" := q1]>
      (<["duMuaKL3" := v3]> (<["duMuaGia3" := p3]> (<["duMuaKL2" := v2]>
      (<["duMuaGia2" := p2]> (<["duMuaKL1" := v1]> (<["duMuaGia1" := p1]> ∅))))))))))).
Proof. reflexivity. Qed.

(** X13. An order-book event with fewer than three levels on a side
    writes 0 as price and volume of every missing level of that side,
    whatever the cache held for that level. *)
Theorem missing_levels_read_zero (m : RealtimeManager.BidAsk num) w w1 i :
  (i < 3)%nat →
  RealtimeManager.updateCache (RealtimeManager.OfBidAsk m) "bid-ask" w
    = RealtimeManager.Returned w1 →
  ((length (RealtimeManager.ba_bidPrices m) ≤ i)%nat →
     CacheManager.field (RealtimeManager.cache w1) (RealtimeManager.ba_symbol m)
       (Spec.buyFields i).1 = Some (Js.VNum (Js.of_Z 0))
     ∧ CacheManager.field (RealtimeManager.cache w1) (RealtimeManager.ba_symbol m)
         (Spec.buyFields i).2 = Some (Js.VNum (Js.of_Z 0)))
  ∧ ((length (RealtimeManager.ba_askPrices m) ≤ i)%nat →
       CacheManager.field (RealtimeManager.cache w1) (RealtimeManager.ba_symbol m)
         (Spec.sellFields i).1 = Some (Js.VNum (Js.of_Z 0))
       ∧ CacheManager.field (RealtimeManager.cache w1) (RealtimeManager.ba_symbol m)
           (Spec.sellFields i).2 = Some (Js.VNum (Js.of_Z 0))).
Proof.
  intros Hi Hw1.
  assert (RealtimeManager.cache w1
          = CacheManager.updateStockData (RealtimeManager.ba_symbol m)
              (Js.literal
                 [("duMuaGia1", RealtimeManager.priceAt (RealtimeManager.ba_bidPrices m) 0);
                  ("duMuaKL1", RealtimeManager.volumeAt (RealtimeManager.ba_bidPrices m) 0);
                  ("duMuaGia2", RealtimeManager.priceAt (RealtimeManager.ba_bidPrices m) 1);
                  ("duMuaKL2", RealtimeManager.volumeAt (RealtimeManager.ba_bidPrices m) 1);
                  ("duMuaGia3", RealtimeManager.priceAt (RealtimeManager.ba_bidPrices m) 2);
                  ("duMuaKL3", RealtimeManager.volumeAt (RealtimeManager.ba_bidPrices m) 2);
                  ("duBanGia1", RealtimeManager.priceAt (RealtimeManager.ba_askPrices m) 0);
                  ("duBanKL1", RealtimeManager.volumeAt (RealtimeManager.ba_askPrices m) 0);
                  ("duBanGia2", RealtimeManager.priceAt (RealtimeManager.ba_askPrices m) 1);
                  ("duBanKL2", RealtimeManager.volumeAt (RealtimeManager.ba_askPrices m) 1);
                  ("duBanGia3", RealtimeManager.priceAt (RealtimeManager.ba_askPrices m) 2);
                  ("duBanKL3", RealtimeManager.volumeAt (RealtimeManager.ba_askPrices m) 2)])
              (RealtimeManager.cache w)) as ->.
  { by injection Hw1 as <-. }
  rewrite orderBook_literal.
  split; intros Hlen;
    destruct (priceAt_beyond _ i Hlen) as [Hp Hv];
    destruct i as [|[|[|i]]]; try lia; cbn [Spec.buyFields Spec.sellFields fst snd];
    rewrite !field_updateStockData, Hp, Hv;
    by simplify_map_eq.
Qed.

End EventWrites.

Section SymbolUpdates.
Context {num : Type} `{!Js.Number num} {Env : Type}.
Context (decode : RealtimeManager.MessageType → string
                  → option (RealtimeManager.DecodedMessage num)).
Implicit Types (rm : RealtimeManager.Manager num Env) (w : RealtimeManager.World num Env).

(** X14. [updateSymbols] on a connected manager subscribes to the new
    list at once; on a disconnected one nothing is sent, and the next
    successful connect subscribes to the new list, not to the one given
    at initialization. *)
Theorem updated_symbols_are_subscribed rm w socket (newSymbols : list string) :
  RealtimeManager.socket rm = Some socket →
  RealtimeManager.emitThrows socket = false →
  (RealtimeManager.isConnected rm = true →
     RealtimeManager.effects (RealtimeManager.updateSymbols newSymbols (rm, w)).2
     = (RealtimeManager.effects w
        ++ [RealtimeManager.SocketEmit "match-price" newSymbols;
            RealtimeManager.SocketEmit "bid-ask" newSymbols;
            RealtimeManager.SocketEmit "index"
              ["VN30"; "VNINDEX"; "HNX30"; "HNXIndex"; "HNXUpcomIndex"]])%list)
  ∧ (RealtimeManager.isConnected rm = false →
       (RealtimeManager.updateSymbols newSymbols (rm, w)).2 = w
       ∧ RealtimeManager.effects
           (RealtimeManager.on decode RealtimeManager.Connect
              (RealtimeManager.updateSymbols newSymbols (rm, w))).2
         = (RealtimeManager.effects w
            ++ [RealtimeManager.SocketEmit "match-price" newSymbols;
                RealtimeManager.SocketEmit "bid-ask" newSymbols;
                RealtimeManager.SocketEmit "index"
                  ["VN30"; "VNINDEX"; "HNX30"; "HNXIndex"; "HNXUpcomIndex"]])%list).
Proof.
  intros Hs Hemit. split; intros Hconn.
  - unfold RealtimeManager.updateSymbols. simpl. rewrite Hconn. simpl.
    unfold RealtimeManager.subscribeToSymbols. simpl. by rewrite Hs, ?Hconn, Hemit.
  - unfold RealtimeManager.updateSymbols. simpl. rewrite Hconn. simpl.
    split; [done|]. rewrite Hs. simpl.
    unfold RealtimeManager.subscribeToSymbols. simpl. by rewrite Hemit.
Qed.

End SymbolUpdates.

(** ** data-initializer.js: bulk records, errors, the symbol list *)

Section BulkRecords.
Context {num : Type} `{!Js.Number num}.
Implicit Types (c : CacheManager.Cache (Js.val num)) (model : Js.obj num).

Lemma dom_transform model (data : Js.obj num) :
  DataInitializer.transformCompressedToStockData model = Some data →
  dom data = list_to_set Spec.bulkFields.
Proof.
  unfold DataInitializer.transformCompressedToStockData.
  destruct (Js.toFixed0_if_truthy _) as [tb|]; [|done].
  intros [= <-]. by rewrite dom_literal.
Qed.

(** X15. Every field a realtime event writes into a stock record is a
    field of every bulk-loaded record: a field that a bulk-loaded record
    lacks is never changed, in any record, by any event. *)
Theorem realtime_fields_are_bulk_fields {Env : Type} model (data : Js.obj num) f
    (message : RealtimeManager.DecodedMessage num) (type s : string)
    (w w1 : RealtimeManager.World num Env) :
  DataInitializer.transformCompressedToStockData model = Some data →
  data !! f = None →
  RealtimeManager.updateCache message type w = RealtimeManager.Returned w1 →
  CacheManager.field (RealtimeManager.cache w1) s f
  = CacheManager.field (RealtimeManager.cache w) s f.
Proof.
  intros Hdata Hf Hw1.
  apply dom_transform in Hdata. apply not_elem_of_dom in Hf.
  rewrite Hdata, elem_of_list_to_set in Hf.
  assert (Forall (λ k, k ∈ Spec.bulkFields) Spec.tradeFields) as Htrade
    by (apply (bool_decide_unpack _); by vm_compute).
  assert (Forall (λ k, k ∈ Spec.bulkFields) Spec.orderBookFields) as Hbook
    by (apply (bool_decide_unpack _); by vm_compute).
  rewrite Forall_forall in Htrade. rewrite Forall_forall in Hbook.
  destruct (updateCache_cases message type w w1 Hw1)
    as [(_ & update & Hdom & ->)|[(_ & update & Hdom & ->)|[(_ & _ & ix & _ & ->)| ->]]].
  - apply field_updateStockData_unmentioned, not_elem_of_dom.
    rewrite Hdom, elem_of_list_to_set. intros Hin. by apply Hf, Htrade.
  - apply field_updateStockData_unmentioned, not_elem_of_dom.
    rewrite Hdom, elem_of_list_to_set. intros Hin. by apply Hf, Hbook.
  - done.
  - done.
Qed.

Lemma stockData_setSymbolsByGroup group (syms : list string) c :
  CacheManager.stockData (CacheManager.setSymbolsByGroup group syms c)
  = CacheManager.stockData c.
Proof. reflexivity. Qed.

Lemma symbolsByGroup_setMultipleStockData (stockDataMap : gmap string (Js.obj num)) c :
  CacheManager.symbolsByGroup (CacheManager.setMultipleStockData stockDataMap c)
  = CacheManager.symbolsByGroup c.
Proof.
  unfold CacheManager.setMultipleStockData.
  generalize (Js.entries stockDataMap). intros l. revert c.
  induction l as [|e l IH]; intros c; simpl; [done|by rewrite IH].
Qed.

(** X16. When [loadExchangeData] fails, the stock data is untouched.  If
    the symbol request failed, the whole cache is untouched; if the
    failure came later (the stock-data request, or a record that cannot
    be transformed), the group's symbol list has already been replaced. *)
Theorem loadExchangeData_failure exchange symbolsResponse stockDataResponse c c' :
  DataInitializer.loadExchangeData exchange symbolsResponse stockDataResponse c
    = RealtimeManager.Thrown c' →
  CacheManager.stockData c' = CacheManager.stockData c
  ∧ (DataInitializer.status symbolsResponse ≠ 200 → c' = c)
  ∧ (DataInitializer.status symbolsResponse = 200 →
     CacheManager.symbolsByGroup c' !! exchange
     = Some (DataInitializer.data symbolsResponse)).
Proof.
  unfold DataInitializer.loadExchangeData.
  destruct (DataInitializer.status symbolsResponse =? 200)%nat eqn:H1; simpl.
  - apply Nat.eqb_eq in H1.
    assert (∀ c1, c1 = CacheManager.setSymbolsByGroup exchange
                         (DataInitializer.data symbolsResponse) c →
                  CacheManager.stockData c1 = CacheManager.stockData c
                  ∧ (DataInitializer.status symbolsResponse ≠ 200 → c1 = c)
                  ∧ (DataInitializer.status symbolsResponse = 200 →
                     CacheManager.symbolsByGroup c1 !! exchange
                     = Some (DataInitializer.data symbolsResponse))) as Hc1.
    { intros c1 ->. split; [done|]. split; [done|]. intros _. simpl.
      apply lookup_insert_eq. }
    destruct (negb (DataInitializer.status stockDataResponse =? 200)%nat).
    + intros [= <-]. by apply Hc1.
    + destruct (DataInitializer.buildStockDataMap _ ∅); [done|].
      intros [= <-]. by apply Hc1.
  - apply Nat.eqb_neq in H1. intros [= <-]. done.
Qed.


Lemma buildStockDataMap_app (pre post : list (Js.obj num)) (acc : gmap string (Js.obj num)) :
  DataInitializer.buildStockDataMap (pre ++ post) acc
  = DataInitializer.buildStockDataMap pre acc ≫= DataInitializer.buildStockDataMap post.
Proof.
  revert acc. induction pre as [|item pre IH]; intros acc; simpl; [done|].
  destruct (DataInitializer.transformCompressedToStockData item); [apply IH|done].
Qed.

Lemma buildStockDataMap_other (arr : list (Js.obj num)) (acc m : gmap string (Js.obj num)) k :
  DataInitializer.buildStockDataMap arr acc = Some m →
  (∀ item, item ∈ arr → Js.ToPropertyKey (Js.get item "s") ≠ k) →
  m !! k = acc !! k.
Proof.
  revert acc. induction arr as [|item arr IH]; intros acc; simpl.
  - by intros [= <-].
  - destruct (DataInitializer.transformCompressedToStockData item) as [data|]; [|done].
    intros Hm Hk. rewrite (IH _ Hm).
    + apply lookup_insert_ne. apply Hk, list_elem_of_here.
    + intros item' Hin. by apply Hk, list_elem_of_further.
Qed.


End BulkRecords.

Section RefreshLoop.
Context {num : Type} `{!Js.Number num}.
Implicit Types (c : CacheManager.Cache (Js.val num)).

Lemma distinct_elem_of (l : list string) x : x ∈ Js.distinct l ↔ x ∈ l.
Proof.
  induction l as [|y l IH]; simpl; [done|].
  rewrite !elem_of_cons, list_elem_of_filter, IH.
  destruct (decide (x = y)); naive_solver.
Qed.

Lemma distinct_NoDup (l : list string) : NoDup (Js.distinct l).
Proof.
  induction l as [|y l IH]; simpl; [constructor|].
  apply NoDup_cons. split.
  - rewrite list_elem_of_filter. naive_solver.
  - by apply NoDup_filter.
Qed.

Lemma elem_of_collected (groups : list string) (symbolsOf : string → list string)
    (start : list string) x :
  x ∈ foldl (λ allSymbols exchange, (allSymbols ++ symbolsOf exchange)%list) start groups
  ↔ x ∈ start ∨ ∃ exchange, exchange ∈ groups ∧ x ∈ symbolsOf exchange.
Proof.
  revert start. induction groups as [|g groups IH]; intros start; simpl.
  - split; [by left|]. intros [?|(e & He & _)]; [done|by apply elem_of_nil in He].
  - rewrite IH, elem_of_app. split.
    + intros [[?|?]|(e & He & Hx)]; [by left|right; exists g|right; exists e].
      * split; [apply list_elem_of_here|done].
      * split; [by apply list_elem_of_further|done].
    + intros [?|(e & He & Hx)]; [by left; left|].
      apply elem_of_cons in He as [->|He]; [by left; right|right; by exists e].
Qed.

(** X19. The symbol list handed to the realtime manager holds every
    symbol of the five exchange groups of the cache and the five market
    indexes, nothing else, and each of them once. *)
Theorem getAllSymbolsForRealtime_members c :
  NoDup (DataInitializer.getAllSymbolsForRealtime c)
  ∧ ∀ x, x ∈ DataInitializer.getAllSymbolsForRealtime c
         ↔ (∃ exchange, exchange ∈ DataInitializer.exchanges
                        ∧ x ∈ CacheManager.getSymbolsByGroup exchange c)
           ∨ x ∈ ["VN30"; "VNINDEX"; "HNX30"; "HNXIndex"; "HNXUpcomIndex"].
Proof.
  unfold DataInitializer.getAllSymbolsForRealtime. split; [apply distinct_NoDup|].
  intros x. rewrite distinct_elem_of, elem_of_app.
  rewrite (elem_of_collected DataInitializer.exchanges
             (λ exchange, CacheManager.getSymbolsByGroup exchange c) [] x).
  split.
  - intros [[Hx|?]|?]; [by apply elem_of_nil in Hx|by left|by right].
  - intros [?|?]; [left; by right|by right].
Qed.

Lemma groups_loadExchangeData exchange symbolsResponse stockDataResponse c g :
  g ≠ exchange →
  CacheManager.symbolsByGroup
    match DataInitializer.loadExchangeData exchange symbolsResponse stockDataResponse c with
    | RealtimeManager.Returned c' => c'
    | RealtimeManager.Thrown c' => c'
    end !! g
  = CacheManager.symbolsByGroup c !! g.
Proof.
  intros Hg. unfold DataInitializer.loadExchangeData.
  destruct (negb (DataInitializer.status symbolsResponse =? 200)%nat); [done|].
  destruct (negb (DataInitializer.status stockDataResponse =? 200)%nat);
    [simpl; by rewrite lookup_insert_ne|].
  destruct (DataInitializer.buildStockDataMap _ ∅); simpl.
  - rewrite symbolsByGroup_setMultipleStockData. simpl. by rewrite lookup_insert_ne.
  - by rewrite lookup_insert_ne.
Qed.

Lemma groups_loadExchanges
    (answers : list (string * (DataInitializer.Response (list string)
                               * DataInitializer.Response (list (Js.obj num))))) c g :
  g ∉ answers.*1 →
  CacheManager.symbolsByGroup
    match DataInitializer.loadExchanges answers c with
    | RealtimeManager.Returned c' => c'
    | RealtimeManager.Thrown c' => c'
    end !! g
  = CacheManager.symbolsByGroup c !! g.
Proof.
  revert c. induction answers as [|[e [sr dr]] answers IH]; intros c Hg; simpl; [done|].
  simpl in Hg. apply not_elem_of_cons in Hg as [Hne Hg].
  pose proof (groups_loadExchangeData e sr dr c g Hne) as Hone.
  destruct (DataInitializer.loadExchangeData e sr dr c) as [c1|c1]; [|done].
  by rewrite IH.
Qed.

Lemma loadExchanges_app
    (pre post : list (string * (DataInitializer.Response (list string)
                                * DataInitializer.Response (list (Js.obj num))))) c :
  DataInitializer.loadExchanges (pre ++ post) c
  = match DataInitializer.loadExchanges pre c with
    | RealtimeManager.Returned c0 => DataInitializer.loadExchanges post c0
    | RealtimeManager.Thrown c0 => RealtimeManager.Thrown c0
    end.
Proof.
  revert c. induction pre as [|[e [sr dr]] pre IH]; intros c; simpl; [done|].
  by destruct (DataInitializer.loadExchangeData e sr dr c).
Qed.

(** X20. The refresh loop stops at the first exchange that fails: the
    exchanges before it stay loaded, the stock data is as they left it,
    and the group list of every exchange after it (not named before) is
    what it was before the refresh. *)
Theorem refresh_stops_at_first_failure
    (pre post : list (string * (DataInitializer.Response (list string)
                                * DataInitializer.Response (list (Js.obj num)))))
    exchange symbolsResponse stockDataResponse c c0 c1 :
  DataInitializer.loadExchanges pre c = RealtimeManager.Returned c0 →
  DataInitializer.loadExchangeData exchange symbolsResponse stockDataResponse c0
    = RealtimeManager.Thrown c1 →
  DataInitializer.loadExchanges
    (pre ++ (exchange, (symbolsResponse, stockDataResponse)) :: post) c
    = RealtimeManager.Thrown c1
  ∧ CacheManager.stockData c1 = CacheManager.stockData c0
  ∧ ∀ g, g ∉ pre.*1 → g ≠ exchange →
         CacheManager.symbolsByGroup c1 !! g = CacheManager.symbolsByGroup c !! g.
Proof.
  intros Hpre Hfail. split; [|split].
  - rewrite loadExchanges_app, Hpre. simpl. by rewrite Hfail.
  - unfold DataInitializer.loadExchangeData in Hfail.
    destruct (negb (DataInitializer.status symbolsResponse =? 200)%nat);
      [by injection Hfail as <-|].
    destruct (negb (DataInitializer.status stockDataResponse =? 200)%nat);
      [by injection Hfail as <-|].
    destruct (DataInitializer.buildStockDataMap _ ∅); [done|by injection Hfail as <-].
  - intros g Hpre_g Hne.
    pose proof (groups_loadExchanges pre c g Hpre_g) as H0. rewrite Hpre in H0.
    pose proof (groups_loadExchangeData exchange symbolsResponse stockDataResponse c0 g Hne)
      as H1. rewrite Hfail in H1.
    by rewrite H1.
Qed.

End RefreshLoop.

(** ** server.js: the endpoints that serve the cache *)

Section Endpoints.
Context {num : Type} `{!Js.Number num}.
Implicit Types (c : CacheManager.Cache (Js.val num)) (body : Server.RequestBody num).
Implicit Types (group : Js.val num).

(** X21. While the cache is not ready no endpoint answers 200.  The
    compressed endpoint then answers 503 whatever the request, whereas
    the group and market-index endpoints check the request first: a
    request they would reject gets its 400 even then. *)
Theorem endpoints_refuse_until_ready c group body :
  CacheManager.isReady c = false →
  Server.statusCode (Server.compressedGetList body c) = 503
  ∧ Server.statusCode (Server.getByGroup group c)
    = (if Js.ToBoolean group then 503 else 400)
  ∧ Server.statusCode (Server.marketIndexGetList body c)
    = match Server.body_symbols body with
      | Server.Array _ => 503
      | Server.NotArray => 400
      end.
Proof.
  intros Hready.
  unfold Server.compressedGetList, Server.getByGroup, Server.marketIndexGetList.
  rewrite Hready. simpl.
  split; [done|]. split.
  - by destruct (Js.ToBoolean group).
  - by destruct (Server.body_symbols body).
Qed.

Lemma compressItem_symbol (entry : string * Js.obj num) :
  Server.compressItem entry !! "s" = Some (Js.VStr entry.1).
Proof. reflexivity. Qed.


(** X23. What the compressed endpoint serves for a bulk-loaded record
    goes back to what the upstream API sent: ceiling, reference and floor
    are the upstream values as they are; every price, volume and counter
    is the upstream value when it is truthy and 0 otherwise; the average
    price is the upstream one rounded to an integer. *)
Theorem compressed_round_trip (model data : Js.obj num) (symbol : string) :
  DataInitializer.transformCompressedToStockData model = Some data →
  Js.get (Server.compressItem (symbol, data)) "s" = Js.VStr symbol
  ∧ Js.get (Server.compressItem (symbol, data)) "cei" = Js.get model "cei"
  ∧ Js.get (Server.compressItem (symbol, data)) "ref" = Js.get model "ref"
  ∧ Js.get (Server.compressItem (symbol, data)) "flo" = Js.get model "flo"
  ∧ Forall (λ k, Js.get (Server.compressItem (symbol, data)) k
                 = DataInitializer.orZero (Js.get model k))
           Spec.compressedQuantities
  ∧ Js.toFixed0_if_truthy (Js.get model "avgp")
    = Some (Js.get (Server.compressItem (symbol, data)) "avgp").
Proof.
  unfold DataInitializer.transformCompressedToStockData.
  destruct (Js.toFixed0_if_truthy (Js.get model "avgp")) as [tb|]; [|done].
  intros [= <-].
  split; [reflexivity|]. split; [reflexivity|]. split; [reflexivity|].
  split; [reflexivity|]. split; [|reflexivity].
  repeat (apply Forall_cons_2; [reflexivity|]). apply Forall_nil_2.
Qed.

End Endpoints.

(** ** The further properties at work on concrete inputs *)

Lemma resubscribe_is_noop_witness :
  (BroadcastService.handleSubscription "A" "bid-ask" (BroadcastService.Symbols ["FPT"])
     (BroadcastService.handleSubscription "A" "match-price"
        (BroadcastService.Symbols ["VIC"; "FPT"]) Samples.hubWithA).1).1
  = (BroadcastService.handleSubscription "A" "match-price"
       (BroadcastService.Symbols ["VIC"; "FPT"]) Samples.hubWithA).1.
Proof.
  apply (resubscribe_is_noop Samples.hubWithA "A" "match-price" "bid-ask"
           ["VIC"; "FPT"] ["FPT"]).
  intros s Hs. apply elem_of_cons in Hs as [->|Hs].
  - apply list_elem_of_further, list_elem_of_here.
  - by apply elem_of_nil in Hs.
Defined.

Lemma other_clients_untouched_witness :
  "B" ≠ "A"
  ∧ BroadcastService.interests (BroadcastService.handleDisconnection "A" Samples.hubWithA) "B"
    = BroadcastService.interests Samples.hubWithA "B".
Proof.
  assert ("B" ≠ "A") as Hne by discriminate.
  split; [exact Hne|].
  apply (other_clients_untouched Samples.hubWithA "A" "B" "match-price" [] Hne).
Defined.

Lemma publish_reaches_only_subscribed_witness :
  "VIC" ∈ BroadcastService.interests Samples.hubWithA "A".
Proof.
  apply (publish_reaches_only_subscribed Samples.stringify
           [BroadcastService.Connection "A" Samples.openSocket;
            BroadcastService.Subscription "A" "match-price"
              (BroadcastService.Symbols ["VIC"])]
           "VIC" "match-price"
           (RealtimeManager.OfMatchPrice (Samples.matchPriceOf "VIC"))
           "A" "match-price" "{VIC}").
  vm_compute. apply list_elem_of_here.
Defined.

Lemma trade_and_order_book_writes_disjoint_witness :
  CacheManager.field
    (RealtimeManager.cache
       (Samples.afterEvent (RealtimeManager.OfMatchPrice (Samples.matchPriceOf "VIC"))
          "match-price")) "VIC" "duMuaGia1"
  = CacheManager.field (RealtimeManager.cache Samples.world) "VIC" "duMuaGia1".
Proof.
  apply (trade_and_order_book_writes_disjoint
           (RealtimeManager.OfMatchPrice (Samples.matchPriceOf "VIC")) "match-price"
           "duMuaGia1" "VIC" Samples.world).
  - left. split; [reflexivity|apply list_elem_of_here].
  - reflexivity.
Defined.

Lemma event_touches_own_symbol_only_witness :
  CacheManager.symbolsByGroup
    (RealtimeManager.cache
       (Samples.afterEvent (RealtimeManager.OfBidAsk Samples.thinBook) "bid-ask"))
  = CacheManager.symbolsByGroup (RealtimeManager.cache Samples.world).
Proof.
  apply (event_touches_own_symbol_only (RealtimeManager.OfBidAsk Samples.thinBook)
           "bid-ask" Samples.world).
  reflexivity.
Defined.

Lemma index_event_replaces_record_witness :
  CacheManager.stockData
    (RealtimeManager.cache
       (Samples.afterEvent (RealtimeManager.OfIndex (Samples.indexOf "VN30")) "index"))
  = CacheManager.stockData (RealtimeManager.cache Samples.world).
Proof.
  apply (index_event_replaces_record (RealtimeManager.OfIndex (Samples.indexOf "VN30"))
           Samples.world).
  - reflexivity.
  - reflexivity.
Defined.

Lemma missing_levels_read_zero_witness :
  CacheManager.field
    (RealtimeManager.cache
       (Samples.afterEvent (RealtimeManager.OfBidAsk Samples.thinBook) "bid-ask"))
    "VIC" "duMuaGia2"
  = Some (Js.VNum 0%Z).
Proof.
  destruct (missing_levels_read_zero Samples.thinBook Samples.world
              (Samples.afterEvent (RealtimeManager.OfBidAsk Samples.thinBook) "bid-ask") 1)
    as [Hbuy _].
  - lia.
  - reflexivity.
  - apply Hbuy. simpl. lia.
Defined.

Lemma updated_symbols_are_subscribed_witness :
  (RealtimeManager.updateSymbols ["FPT"] (Samples.exhausted.1, Samples.exhausted.2)).2
  = Samples.exhausted.2.
Proof.
  destruct (updated_symbols_are_subscribed Samples.decode Samples.exhausted.1
              Samples.exhausted.2 Samples.upstreamSocket ["FPT"]) as [_ Hoff].
  - reflexivity.
  - reflexivity.
  - apply Hoff. reflexivity.
Defined.

Lemma realtime_fields_are_bulk_fields_witness :
  CacheManager.field
    (RealtimeManager.cache
       (Samples.afterEvent (RealtimeManager.OfMatchPrice (Samples.matchPriceOf "VIC"))
          "match-price")) "VIC" "note"
  = CacheManager.field (RealtimeManager.cache Samples.world) "VIC" "note".
Proof.
  apply (realtime_fields_are_bulk_fields (Samples.itemOf "VIC" 105%Z)
           (Samples.transformed (Samples.itemOf "VIC" 105%Z)) "note"
           (RealtimeManager.OfMatchPrice (Samples.matchPriceOf "VIC")) "match-price" "VIC"
           Samples.world).
  - reflexivity.
  - reflexivity.
  - reflexivity.
Defined.

Lemma loadExchangeData_failure_witness :
  CacheManager.stockData (Samples.afterLoad Samples.failedAnswer)
  = CacheManager.stockData Samples.knownSymbols.
Proof.
  apply (loadExchangeData_failure "HOSE" Samples.symbolsAnswer Samples.failedAnswer
           Samples.knownSymbols (Samples.afterLoad Samples.failedAnswer)).
  reflexivity.
Defined.



Lemma refresh_stops_at_first_failure_witness :
  DataInitializer.loadExchanges
    [("HOSE", (Samples.symbolsAnswer, Samples.stockAnswer));
     ("HNX", (Samples.symbolsAnswer, Samples.failedAnswer));
     ("UPCOM", (Samples.symbolsAnswer, Samples.stockAnswer))]
    Samples.knownSymbols
  = RealtimeManager.Thrown
      match DataInitializer.loadExchangeData "HNX" Samples.symbolsAnswer
              Samples.failedAnswer (Samples.afterLoad Samples.stockAnswer) with
      | RealtimeManager.Returned c => c
      | RealtimeManager.Thrown c => c
      end.
Proof.
  apply (refresh_stops_at_first_failure
           [("HOSE", (Samples.symbolsAnswer, Samples.stockAnswer))]
           [("UPCOM", (Samples.symbolsAnswer, Samples.stockAnswer))]
           "HNX" Samples.symbolsAnswer Samples.failedAnswer Samples.knownSymbols
           (Samples.afterLoad Samples.stockAnswer)).
  - reflexivity.
  - reflexivity.
Defined.

Lemma endpoints_refuse_until_ready_witness :
  Server.statusCode
    (Server.compressedGetList
       {| Server.body_symbols := Server.NotArray; Server.body_group := Js.VUndefined |}
       CacheManager.constructor) = 503.
Proof.
  destruct (endpoints_refuse_until_ready CacheManager.constructor Js.VUndefined
              {| Server.body_symbols := Server.NotArray;
                 Server.body_group := Js.VUndefined |}) as [Hcompressed _].
  - reflexivity.
  - exact Hcompressed.
Defined.


Lemma compressed_round_trip_witness :
  Js.get (Server.compressItem
            ("VIC", Samples.transformed (Samples.itemOf "VIC" 105%Z))) "cei"
  = Js.get (Samples.itemOf "VIC" 105%Z) "cei".
Proof.
  apply (compressed_round_trip (Samples.itemOf "VIC" 105%Z)
           (Samples.transformed (Samples.itemOf "VIC" 105%Z)) "VIC").
  reflexivity.
Defined.
